(** * Workbook-to-CSV converters: a shallow embedding

    The three scripts under [scripts/] are embedded as functions over an
    explicit world (module attributes, wall clock, standard output, files).

    - [convert_fmr_xlsx.py]  : [FmrXlsx.main]
    - [convert_fmr_2025.py]  : [Fmr2025.script]
    - [convert_excel.py]     : [ConvertExcel.script]

    Calls into third-party code (openpyxl, pandas) are hooks of an
    environment record; the Python builtins the scripts use ([str.replace],
    [str], [csv.writer]) are written out. *)

From Stdlib Require Import ZArith Lia Bool Floats.
From Stdlib Require Import Strings.String Strings.Ascii Numbers.DecimalString.
From stdpp Require Import base strings gmap list.

Local Open Scope string_scope.

(* ------------------------------------------------------------------ *)
(** ** Strings as Python uses them *)

Module PyStr.

(** An occurrence of [pat] somewhere in [s] (Python's [pat in s]). *)
Fixpoint contains (pat s : string) : bool :=
  String.prefix pat s ||
  match s with
  | EmptyString => false
  | String _ r => contains pat r
  end.

(** [s.replace(old, new)] for a non-empty [old]: one pass from the left,
    occurrences taken greedily and never overlapping.  [skip] counts the
    characters of a matched occurrence that are still to be dropped. *)
Fixpoint replace_from (old new : string) (skip : nat) (s : string) : string :=
  match s with
  | EmptyString => EmptyString
  | String c r =>
      match skip with
      | S k => replace_from old new k r
      | O =>
          if String.prefix old s
          then new ++ replace_from old new (String.length old - 1) r
          else String c (replace_from old new 0 r)
      end
  end.

Definition replace (old new s : string) : string := replace_from old new 0 s.

(** The same pass for a pattern of two characters [a b], by direct
    recursion; [replace_two] below shows that it is [replace]. *)
Fixpoint replace2 (a b : ascii) (new s : string) : string :=
  match s with
  | EmptyString => EmptyString
  | String x r =>
      match r with
      | String y r' =>
          if Ascii.eqb x a && Ascii.eqb y b then new ++ replace2 a b new r'
          else String x (replace2 a b new r)
      | EmptyString => String x EmptyString
      end
  end.

(** [s] begins with the characters [a b]. *)
Definition starts2 (a b : ascii) (s : string) : bool :=
  match s with
  | String x (String y _) => Ascii.eqb x a && Ascii.eqb y b
  | _ => false
  end.

(** [s] begins with the character [c]. *)
Definition first_is (c : ascii) (s : string) : bool :=
  match s with
  | String x _ => Ascii.eqb x c
  | EmptyString => false
  end.

(** [str(n)] for integers. *)
Definition str_Z (z : Z) : string := NilZero.string_of_int (Z.to_int z).
Definition str_nat (n : nat) : string := NilZero.string_of_uint (Nat.to_uint n).

Fixpoint zeros (n : nat) : string :=
  match n with
  | O => EmptyString
  | S k => String "0" (zeros k)
  end.

(** The [%0wd] conversion. *)
Definition zpad (width : nat) (z : Z) : string :=
  let s := str_Z z in zeros (width - String.length s) ++ s.

End PyStr.

(* ------------------------------------------------------------------ *)
(** ** Values *)

(** [datetime.datetime]: the fields of the object. *)
Record datetime := mk_datetime {
  year : Z; month : Z; day : Z;
  hour : Z; minute : Z; second : Z; microsecond : Z
}.

(** [str(t)]: ISO format with a blank between date and time. *)
Definition str_datetime (t : datetime) : string :=
  PyStr.zpad 4 (year t) ++ "-" ++ PyStr.zpad 2 (month t) ++ "-" ++
  PyStr.zpad 2 (day t) ++ " " ++ PyStr.zpad 2 (hour t) ++ ":" ++
  PyStr.zpad 2 (minute t) ++ ":" ++ PyStr.zpad 2 (second t) ++
  (if (microsecond t =? 0)%Z then EmptyString
   else "." ++ PyStr.zpad 6 (microsecond t)).

(** What a worksheet cell can hold in values-only mode. *)
Inductive pyval :=
| PNone
| PStr (s : string)
| PBool (b : bool)
| PInt (z : Z)
| PFloat (f : float)
| PDateTime (t : datetime).

Definition is_None (v : pyval) : bool :=
  match v with PNone => true | _ => false end.

(** Exceptions, by what the handlers of the scripts can tell apart:
    [except Exception] takes the first kind only, a bare [except] all. *)
Inductive exn :=
| PyException (msg : string)      (* ValueError, RecursionError, OSError, ... *)
| SystemExit (code : Z)           (* raised by sys.exit(code) *)
| BaseOther (msg : string).       (* KeyboardInterrupt and the like *)

Inductive outcome (A : Type) :=
| Returned (a : A)
| Raised (e : exn).
Arguments Returned {A} a.
Arguments Raised {A} e.

Definition is_Exception (e : exn) : bool :=
  match e with PyException _ => true | _ => false end.

(** [str(e)] as the f-strings of the handlers print it. *)
Definition str_exn (e : exn) : string :=
  match e with
  | PyException msg => msg
  | SystemExit code => PyStr.str_Z code
  | BaseOther msg => msg
  end.

(* ------------------------------------------------------------------ *)
(** ** The module attributes holding the parsing routine *)

(** The two scripts that carry a tolerant parser. *)
Inductive variant := Xlsx | Fmr2025v.

(** A function object that can be bound to the name [from_ISO8601]. *)
Inductive parser :=
| Original                 (* the routine the library defines *)
| Patched (v : variant).   (* [patched_from_ISO8601] of script [v] *)

(** [openpyxl.utils.datetime.from_ISO8601] and
    [openpyxl.descriptors.base.from_ISO8601]. *)
Record modules := mk_modules {
  utils_datetime : parser;
  descriptors_base : parser
}.

(** Library code: it reads the module attributes and the wall clock. *)
Definition lib (A : Type) : Type := modules -> datetime -> outcome A.

(** What a [from_ISO8601] routine hands back when it does not raise: the
    library's own gives a datetime, a date, a time of day, a duration, or
    [None] for the empty string. *)
Inductive parsed :=
| AsDateTime (t : datetime)
| AsDate (y mo d : Z)
| AsTime (h mi s us : Z)
| AsTimeDelta (days seconds microseconds : Z)
| AsNone.

(* ------------------------------------------------------------------ *)
(** ** The tolerant parser *)

Module Tolerant.

(** The chain of [replace] calls of [patched_from_ISO8601]. *)
Definition repair (formatted_string : string) : string :=
  PyStr.replace "T " "T0"
    (PyStr.replace "- " "-0"
       (PyStr.replace "  " " " formatted_string)).

(** The [except] clause: [except Exception] in convert_fmr_xlsx.py, a bare
    [except] in convert_fmr_2025.py. *)
Definition catches (v : variant) (e : exn) : bool :=
  match v with
  | Xlsx => is_Exception e
  | Fmr2025v => true
  end.

(** [patched_from_ISO8601].  [call] is Python's call of a function object
    from this frame.  The [import ... as original] statement stands inside
    the function, so the name [original] is bound to what
    [openpyxl.utils.datetime.from_ISO8601] holds when the function runs.
    The argument is a string ([str] of it, in convert_fmr_xlsx.py, is the
    string itself).  The handler reads the clock and needs no frame. *)
Definition patched_from_ISO8601 (v : variant)
    (call : parser -> string -> outcome parsed)
    (formatted_string : string) : lib parsed :=
  fun m now =>
    let attempt :=
      let fixed := repair formatted_string in
      let original := utils_datetime m in
      call original fixed in
    match attempt with
    | Returned t => Returned t
    | Raised e => if catches v e then Returned (AsDateTime now) else Raised e
    end.

Definition RecursionError : exn :=
  PyException "maximum recursion depth exceeded".

Section Library.

(** The library's own [from_ISO8601]: [None] when it raises ValueError. *)
Variable from_ISO8601 : string -> option parsed.

(** Calling the function object [p] with [depth] frames left on the
    interpreter's stack: with none left the call raises RecursionError. *)
Fixpoint call_parser (depth : nat) (p : parser) (s : string) : lib parsed :=
  fun m now =>
    match depth with
    | O => Raised RecursionError
    | S d =>
        match p with
        | Original =>
            match from_ISO8601 s with
            | Some t => Returned t
            | None => Raised (PyException ("Invalid datetime value " ++ s))
            end
        | Patched v =>
            patched_from_ISO8601 v (fun q s' => call_parser d q s' m now) s m now
        end
    end.

End Library.

End Tolerant.

(* ------------------------------------------------------------------ *)
(** ** Workbooks and frames *)

(** What [ws.iter_rows(values_only=True)] hands out next: a row, or an
    exception raised while the row is read. *)
Inductive iter_item :=
| Yield (row : list pyval)
| IterError (e : exn).

Record worksheet := mk_worksheet {
  title : pyval;
  max_row : pyval;
  max_column : pyval;
  iter_rows : list iter_item
}.

Record workbook := mk_workbook {
  active : option worksheet
}.

(** A pandas frame: column labels and rows ([len(df)] counts the rows). *)
Record DataFrame := mk_DataFrame {
  columns : list pyval;
  data : list (list pyval)
}.

(** The code outside the repository that the scripts call. *)
Record env := mk_env {
  float_repr : float -> string;            (* str of a float *)
  list_repr : list pyval -> string;        (* str of a list *)
  load_workbook : string -> lib workbook;  (* read_only=True, data_only=True *)
  read_excel : string -> lib DataFrame;    (* pandas.read_excel(path) *)
  open_error : string -> option exn;       (* open(path, 'w') failing *)
  write_error : string -> nat -> option exn  (* the n-th record write failing *)
}.

(* ------------------------------------------------------------------ *)
(** ** The csv module, default dialect *)

Module Csv.

Definition DQ : ascii := "034"%char.
Definition CR : ascii := "013"%char.
Definition LF : ascii := "010"%char.
Definition COMMA : ascii := ","%char.

Definition crlf : string := String CR (String LF EmptyString).
Definition lf : string := String LF EmptyString.

Fixpoint occurs (c : ascii) (s : string) : bool :=
  match s with
  | EmptyString => false
  | String x r => Ascii.eqb c x || occurs c r
  end.

(** Characters that make the writer quote a field: the delimiter, the
    quote character and the characters of the writer's line terminator.
    (Interpreters from 3.13 on also quote a carriage return and a line
    feed that are not in the terminator; under the terminator of
    [csv.writer] itself the two rules agree.) *)
Definition special (lineterminator : string) (c : ascii) : bool :=
  Ascii.eqb c COMMA || Ascii.eqb c DQ || occurs c lineterminator.

Fixpoint needs_quote (lineterminator s : string) : bool :=
  match s with
  | EmptyString => false
  | String c r => special lineterminator c || needs_quote lineterminator r
  end.

Fixpoint double_quotes (s : string) : string :=
  match s with
  | EmptyString => EmptyString
  | String c r =>
      if Ascii.eqb c DQ then String DQ (String DQ (double_quotes r))
      else String c (double_quotes r)
  end.

Definition field_text (lineterminator s : string) : string :=
  if needs_quote lineterminator s
  then String DQ (double_quotes s ++ String DQ EmptyString)
  else s.

Fixpoint join_fields (lineterminator : string) (fs : list string) : string :=
  match fs with
  | [] => EmptyString
  | [f] => field_text lineterminator f
  | f :: r =>
      field_text lineterminator f ++ String COMMA (join_fields lineterminator r)
  end.

(** [writer.writerow] on fields that are already strings: a record that
    would come out empty although it has a field is written as two quotes. *)
Definition record_text (lineterminator : string) (fs : list string) : string :=
  let body := join_fields lineterminator fs in
  (if Nat.ltb 0 (length fs) && Nat.eqb (String.length body) 0
   then String DQ (String DQ EmptyString) else body) ++ lineterminator.

Fixpoint text (lineterminator : string) (records : list (list string)) : string :=
  match records with
  | [] => EmptyString
  | r :: rest => record_text lineterminator r ++ text lineterminator rest
  end.

(** *** Reading back

    [csv.reader] over a file opened with [newline=''], as one pass over the
    characters: the states are those of the reader, and a line of the file
    ends after LF, or after a CR that no LF follows. *)

Inductive rstate :=
| START_RECORD | START_FIELD | IN_FIELD
| IN_QUOTED_FIELD | QUOTE_IN_QUOTED_FIELD | EAT_CRNL.

Record reader := mk_reader {
  state : rstate;
  field : string;                 (* the field being read *)
  fields : list string;           (* the fields of the record being read *)
  records : list (list string)    (* the records read *)
}.

Definition init : reader := mk_reader START_RECORD EmptyString [] [].

Definition add_char (c : ascii) (st : rstate) (rd : reader) : reader :=
  mk_reader st (field rd ++ String c EmptyString) (fields rd) (records rd).

Definition save_field (st : rstate) (rd : reader) : reader :=
  mk_reader st EmptyString (fields rd ++ [field rd])%list (records rd).

(** The field is saved and the record is complete. *)
Definition end_record (c : ascii) (rd : reader) : reader :=
  mk_reader (if Ascii.eqb c CR then EAT_CRNL else START_RECORD)
    EmptyString [] (records rd ++ [fields rd ++ [field rd]])%list.

Definition is_newline (c : ascii) : bool := Ascii.eqb c CR || Ascii.eqb c LF.

Definition start_field (rd : reader) (c : ascii) : reader :=
  if is_newline c then end_record c rd
  else if Ascii.eqb c DQ then
    mk_reader IN_QUOTED_FIELD (field rd) (fields rd) (records rd)
  else if Ascii.eqb c COMMA then save_field START_FIELD rd
  else add_char c IN_FIELD rd.

Definition start_record (rd : reader) (c : ascii) : reader :=
  if is_newline c then
    (* an empty line is the record with no field *)
    mk_reader (if Ascii.eqb c CR then EAT_CRNL else START_RECORD)
      EmptyString [] (records rd ++ [[]])%list
  else start_field rd c.

Definition step (rd : reader) (c : ascii) : reader :=
  match state rd with
  | START_RECORD => start_record rd c
  | EAT_CRNL =>
      if Ascii.eqb c LF then
        mk_reader START_RECORD (field rd) (fields rd) (records rd)
      else start_record rd c
  | START_FIELD => start_field rd c
  | IN_FIELD =>
      if is_newline c then end_record c rd
      else if Ascii.eqb c COMMA then save_field START_FIELD rd
      else add_char c IN_FIELD rd
  | IN_QUOTED_FIELD =>
      if Ascii.eqb c DQ then
        mk_reader QUOTE_IN_QUOTED_FIELD (field rd) (fields rd) (records rd)
      else add_char c IN_QUOTED_FIELD rd
  | QUOTE_IN_QUOTED_FIELD =>
      if Ascii.eqb c DQ then add_char c IN_QUOTED_FIELD rd
      else if Ascii.eqb c COMMA then save_field START_FIELD rd
      else if is_newline c then end_record c rd
      else add_char c IN_FIELD rd
  end.

Fixpoint run (rd : reader) (s : string) : reader :=
  match s with
  | EmptyString => rd
  | String c r => run (step rd c) r
  end.

(** At the end of the input a record that was begun is handed out. *)
Definition finish (rd : reader) : list (list string) :=
  match state rd with
  | START_RECORD | EAT_CRNL => records rd
  | _ => (records rd ++ [fields rd ++ [field rd]])%list
  end.

Definition read (s : string) : list (list string) := finish (run init s).

(** The states in which the reader holds a whole field. *)
Definition field_done (st : rstate) : bool :=
  match st with
  | START_FIELD | IN_FIELD | QUOTE_IN_QUOTED_FIELD => true
  | _ => false
  end.

(** The state after the line end [c] closed a record. *)
Definition after_newline (c : ascii) : rstate :=
  if Ascii.eqb c CR then EAT_CRNL else START_RECORD.

End Csv.

(* ------------------------------------------------------------------ *)
(** ** The builtins on cell values *)

Module Py.

Section WithEnv.

Variable E : env.

(** [str(v)]. *)
Definition str (v : pyval) : string :=
  match v with
  | PNone => "None"
  | PStr s => s
  | PBool true => "True"
  | PBool false => "False"
  | PInt z => PyStr.str_Z z
  | PFloat f => float_repr E f
  | PDateTime t => str_datetime t
  end.

(** The text [csv.writer] takes for a field: a string as it is, [None] as
    the empty string, anything else through [str]. *)
Definition csv_field (v : pyval) : string :=
  match v with
  | PNone => EmptyString
  | PStr s => s
  | _ => str v
  end.

(** The characters [writer.writerow(row)] writes. *)
Definition writerow_text (lineterminator : string) (row : list pyval) : string :=
  Csv.record_text lineterminator (map csv_field row).

End WithEnv.

End Py.

(* ------------------------------------------------------------------ *)
(** ** The world the scripts run in *)

Record world := mk_world {
  mods : modules;                (* the two module attributes *)
  clock : nat -> datetime;       (* the readings the wall clock will give *)
  ticks : nat;                   (* readings taken so far *)
  stdout : list string;          (* lines printed *)
  stderr : list string;
  files : gmap string string     (* path to content *)
}.

(** A statement: it returns or raises, and leaves a world behind. *)
Definition M (A : Type) : Type := world -> outcome A * world.

Definition ret {A} (a : A) : M A := fun w => (Returned a, w).

Definition bind {A B} (c : M A) (k : A -> M B) : M B :=
  fun w =>
    match c w with
    | (Returned a, w') => k a w'
    | (Raised e, w') => (Raised e, w')
    end.

Definition raise {A} (e : exn) : M A := fun w => (Raised e, w).

Notation "'do' x <- c ; k" := (bind c (fun x => k))
  (at level 10, x name, c at level 100, k at level 200).

(** [try: body / except <filter> as e: handler]. *)
Definition try_except {A} (body : M A) (filter : exn -> bool)
    (handler : exn -> M A) : M A :=
  fun w =>
    match body w with
    | (Raised e, w') => if filter e then handler e w' else (Raised e, w')
    | r => r
    end.

(** [try: body / finally: final]: [final] runs whatever [body] did. *)
Definition try_finally {A} (body : M A) (final : M unit) : M A :=
  fun w =>
    match body w with
    | (o, w1) =>
        match final w1 with
        | (Returned _, w2) => (o, w2)
        | (Raised e, w2) => (Raised e, w2)
        end
    end.

(** [print(line)] on a standard output that takes every line: the stream
    is open and its encoding has the characters of the messages.  Under
    an encoding without them (the marks of the closing lines are not
    ASCII) the call raises; that case is outside this model, and nothing
    below speaks of it. *)
Definition print (line : string) : M unit :=
  fun w => (Returned tt,
            mk_world (mods w) (clock w) (ticks w) (app (stdout w) [line])
              (stderr w) (files w)).

(** [traceback.print_exc()]. *)
Definition print_exc (e : exn) : M unit :=
  fun w => (Returned tt,
            mk_world (mods w) (clock w) (ticks w) (stdout w)
              (app (stderr w) ["Traceback (most recent call last): " ++ str_exn e])
              (files w)).

Definition sys_exit {A} (code : Z) : M A := raise (SystemExit code).

Definition get_mods : M modules := fun w => (Returned (mods w), w).

Definition set_mods (m : modules) : M unit :=
  fun w => (Returned tt,
            mk_world m (clock w) (ticks w) (stdout w) (stderr w) (files w)).

(** [openpyxl.utils.datetime.from_ISO8601 = p]. *)
Definition set_utils_datetime (p : parser) : M unit :=
  do m <- get_mods; set_mods (mk_modules p (descriptors_base m)).

(** [openpyxl.descriptors.base.from_ISO8601 = p]. *)
Definition set_descriptors_base (p : parser) : M unit :=
  do m <- get_mods; set_mods (mk_modules (utils_datetime m) p).

(** A call into the library: it sees the attributes as they are now and
    the clock reading of the moment. *)
Definition call_lib {A} (c : lib A) : M A :=
  fun w => (c (mods w) (clock w (ticks w)),
            mk_world (mods w) (clock w) (S (ticks w)) (stdout w) (stderr w)
              (files w)).

Definition set_file (path content : string) : M unit :=
  fun w => (Returned tt,
            mk_world (mods w) (clock w) (ticks w) (stdout w) (stderr w)
              (<[path := content]> (files w))).

Definition file_content (path : string) (w : world) : string :=
  default EmptyString (files w !! path).


(** A statement that leaves the module attributes as they were. *)
Definition keeps_mods {A} (c : M A) : Prop :=
  forall w, mods (snd (c w)) = mods w.

(** The exit status of the process a script ran in. *)
Definition exit_status {A} (o : outcome A) : Z :=
  match o with
  | Returned _ => 0
  | Raised (SystemExit code) => code
  | Raised _ => 1
  end.

Module Io.

Section WithEnv.

Variable E : env.

(** [open(path, 'w', newline='', encoding='utf-8')]: the file is created or
    emptied. *)
Definition open_w (path : string) : M unit :=
  match open_error E path with
  | Some e => raise e
  | None => set_file path EmptyString
  end.

(** The [n]-th [writerow] on the file at [path].  The file object buffers:
    [file_content] after a successful run is what the closed file holds;
    which part of the records written so far is on disk when a write
    raises is not modelled, and nothing below speaks of it. *)
Definition writerow (lineterminator path : string) (n : nat)
    (row : list pyval) : M unit :=
  match write_error E path n with
  | Some e => raise e
  | None =>
      fun w => set_file path
                 (file_content path w ++ Py.writerow_text E lineterminator row) w
  end.

End WithEnv.

End Io.

(* ------------------------------------------------------------------ *)
(** ** scripts/convert_fmr_xlsx.py *)

Module FmrXlsx.

Section WithEnv.

Variable E : env.

Definition usage : string :=
  "Usage: python3 scripts/convert_fmr_xlsx.py <input.xlsx> <output.csv>".

(** The list handed to [writer.writerow]: [None] becomes the empty string,
    any other cell goes to the writer as it is. *)
Definition render_row (row : list pyval) : list pyval :=
  map (fun cell => if is_None cell then PStr EmptyString else cell) row.

(** The f-string on the sheet; [wb.active] can be [None], which has no
    attribute [title]. *)
Definition sheet_line (ws : option worksheet) : M string :=
  match ws with
  | None => raise (PyException "'NoneType' object has no attribute 'title'")
  | Some ws =>
      ret ("Sheet: " ++ Py.str E (title ws) ++ ", Rows: " ++
           Py.str E (max_row ws) ++ ", Cols: " ++ Py.str E (max_column ws))
  end.

(** The loop over [enumerate(ws.iter_rows(values_only=True), start=1)]. *)
Fixpoint write_rows (output_file : string) (idx : nat)
    (items : list iter_item) : M unit :=
  match items with
  | [] => ret tt
  | IterError e :: _ => raise e
  | Yield row :: rest =>
      do _ <- Io.writerow E Csv.crlf output_file idx (render_row row);
      do _ <- (if Nat.eqb (idx mod 2000) 0
               then print ("  Processed " ++ PyStr.str_nat idx ++ " rows...")
               else ret tt);
      write_rows output_file (S idx) rest
  end.

(** The body of the [try]. *)
Definition convert (input_file output_file : string) : M unit :=
  do _ <- print ("Reading " ++ input_file ++ " with openpyxl...");
  do wb <- call_lib (load_workbook E input_file);
  let ws := active wb in
  do line <- sheet_line ws;
  do _ <- print line;
  do _ <- Io.open_w E output_file;
  do _ <- write_rows output_file 1
            (match ws with Some s => iter_rows s | None => [] end);
  print ("✅ Successfully converted to " ++ output_file).

(** The [except Exception as e] clause. *)
Definition on_error (e : exn) : M unit :=
  do _ <- print ("❌ Error: " ++ str_exn e);
  do _ <- print_exc e;
  sys_exit 1.

(** ORIGINAL to PATCHED: both attributes are saved, then rebound. *)
Definition patch : M (parser * parser) :=
  do m <- get_mods;
  let original_from_ISO8601 := utils_datetime m in
  let original_base_from_ISO8601 := descriptors_base m in
  do _ <- set_utils_datetime (Patched Xlsx);
  do _ <- set_descriptors_base (Patched Xlsx);
  ret (original_from_ISO8601, original_base_from_ISO8601).

(** The [finally] clause. *)
Definition restore (saved : parser * parser) : M unit :=
  do _ <- set_utils_datetime (fst saved);
  set_descriptors_base (snd saved).

Definition main (argv : list string) : M unit :=
  if negb (Nat.eqb (length argv) 3) then
    do _ <- print usage;
    sys_exit 1
  else
    let input_file := nth 1 argv EmptyString in
    let output_file := nth 2 argv EmptyString in
    do saved <- patch;
    try_finally
      (try_except (convert input_file output_file) is_Exception on_error)
      (restore saved).

End WithEnv.

End FmrXlsx.

(* ------------------------------------------------------------------ *)
(** ** scripts/convert_fmr_2025.py *)

Module Fmr2025.

Section WithEnv.

Variable E : env.

Definition input_path : string := "data/FY25_FMRs_revised.xlsx".
Definition output_path : string := "data/fmr-2025.csv".

(** The list appended to [rows] for one row of the sheet. *)
Definition render_row (row : list pyval) : list pyval :=
  map (fun cell =>
         if negb (is_None cell) then PStr (Py.str E cell)
         else PStr EmptyString) row.

Definition sheet_line (ws : option worksheet) : M string :=
  match ws with
  | None => raise (PyException "'NoneType' object has no attribute 'title'")
  | Some ws =>
      ret ("Sheet: " ++ Py.str E (title ws) ++ ", Rows: " ++
           Py.str E (max_row ws) ++ ", Cols: " ++ Py.str E (max_column ws))
  end.

(** The loop that fills [rows]. *)
Fixpoint collect (rows : list (list pyval)) (items : list iter_item)
    : M (list (list pyval)) :=
  match items with
  | [] => ret rows
  | IterError e :: _ => raise e
  | Yield row :: rest => collect (app rows [render_row row]) rest
  end.

(** [writer.writerows(rows)]. *)
Fixpoint writerows (path : string) (n : nat) (rows : list (list pyval))
    : M unit :=
  match rows with
  | [] => ret tt
  | row :: rest =>
      do _ <- Io.writerow E Csv.crlf path n row;
      writerows path (S n) rest
  end.

Definition convert : M unit :=
  do _ <- print ("Reading " ++ input_path ++ "...");
  do wb <- call_lib (load_workbook E input_path);
  let ws := active wb in
  do line <- sheet_line ws;
  do _ <- print line;
  do rows <- collect [] (match ws with Some s => iter_rows s | None => [] end);
  do _ <- print ("Writing " ++ PyStr.str_nat (length rows) ++
                 " rows to " ++ output_path ++ "...");
  do _ <- Io.open_w E output_path;
  do _ <- writerows output_path 1 rows;
  print ("✅ Successfully converted to " ++ output_path).

Definition on_error (e : exn) : M unit :=
  do _ <- print ("❌ Error: " ++ str_exn e);
  do _ <- print_exc e;
  sys_exit 1.

(** The module-level patch: one attribute is saved and rebound. *)
Definition patch : M (option parser) :=
  do m <- get_mods;
  let original_from_ISO8601 := Some (utils_datetime m) in
  do _ <- set_utils_datetime (Patched Fmr2025v);
  ret original_from_ISO8601.

(** The [finally] clause; a function object is true in a condition. *)
Definition restore (original_from_ISO8601 : option parser) : M unit :=
  match original_from_ISO8601 with
  | Some p => set_utils_datetime p
  | None => ret tt
  end.

Definition script : M unit :=
  do original_from_ISO8601 <- patch;
  try_finally
    (try_except convert is_Exception on_error)
    (restore original_from_ISO8601).

End WithEnv.

End Fmr2025.

(* ------------------------------------------------------------------ *)
(** ** scripts/convert_excel.py *)

Module ConvertExcel.

Section WithEnv.

Variable E : env.

Definition usage : string :=
  "Usage: python3 scripts/convert_excel.py <input.xlsx> <output.csv>".

(** pandas takes [None] and the float NaN for missing values. *)
Definition isna (v : pyval) : bool :=
  match v with
  | PNone => true
  | PFloat f => PrimFloat.is_nan f
  | _ => false
  end.

Definition na_rep (v : pyval) : pyval :=
  if isna v then PStr EmptyString else v.

(** The data records.  Cells that are strings or missing are written as
    pandas writes them; pandas formats cells of other types column by
    column (a column of midnights as dates, say), which [str] on the
    single cell does not follow: of the text this script writes for such
    a cell nothing is claimed below. *)
Fixpoint write_data (path : string) (n : nat) (rows : list (list pyval))
    : M unit :=
  match rows with
  | [] => ret tt
  | row :: rest =>
      do _ <- Io.writerow E Csv.lf path n (map na_rep row);
      write_data path (S n) rest
  end.

(** [df.to_csv(path, index=False)]: no index column; the other arguments
    keep their defaults, so the column labels are written as a first
    record ([header=True]) and missing values as empty fields. *)
Definition to_csv (df : DataFrame) (path : string) : M unit :=
  do _ <- Io.open_w E path;
  do _ <- Io.writerow E Csv.lf path 1 (columns df);
  write_data path 2 (data df).

Definition convert (input_file output_file : string) : M unit :=
  do _ <- print ("Reading " ++ input_file ++ "...");
  do df <- call_lib (read_excel E input_file);
  do _ <- print ("Found " ++ PyStr.str_nat (length (data df)) ++ " rows, " ++
                 PyStr.str_nat (length (columns df)) ++ " columns");
  do _ <- print ("Columns: " ++ list_repr E (columns df));
  do _ <- print ("Writing to " ++ output_file ++ "...");
  do _ <- to_csv df output_file;
  print ("✅ Successfully converted to " ++ output_file).

Definition on_error (e : exn) : M unit :=
  do _ <- print ("❌ Error: " ++ str_exn e);
  sys_exit 1.

Definition script (argv : list string) : M unit :=
  if negb (Nat.eqb (length argv) 3) then
    do _ <- print usage;
    sys_exit 1
  else
    let input_file := nth 1 argv EmptyString in
    let output_file := nth 2 argv EmptyString in
    try_except (convert input_file output_file) is_Exception on_error.

End WithEnv.

End ConvertExcel.

(* ------------------------------------------------------------------ *)
(** ** The specification's words, for comparison with the code *)

Module Spec.

(** The separators of the timestamp format [%Y-%m-%dT%H:%M:%SZ]. *)
Definition separators : list ascii := ["-"%char; "T"%char; ":"%char].

(** No separator is followed by a blank any more. *)
Definition zero_after_every_separator (s : string) : bool :=
  forallb (fun c => negb (PyStr.contains (String c " ") s)) separators.

(** A cell as the output shows it: empty for a missing cell, its [str]
    otherwise. *)
Definition cell_text (E : env) (cell : pyval) : string :=
  if is_None cell then EmptyString else Py.str E cell.

(** A sheet of [R] rows and [C] columns. *)
Definition sheet_shape (R C : nat) (rows : list (list pyval)) : Prop :=
  length rows = R /\ Forall (fun row => length row = C) rows.

(** A CSV text of [R] records of [C] fields each. *)
Definition csv_shape (R C : nat) (content : string) : Prop :=
  length (Csv.read content) = R /\
  Forall (fun record => length record = C) (Csv.read content).

(** The workbook at [path] loads, its active sheet hands out [rows]. *)
Definition loads (E : env) (path : string) (rows : list (list pyval)) : Prop :=
  exists ws,
    (forall m now, load_workbook E path m now = Returned (mk_workbook (Some ws)))
    /\ iter_rows ws = map Yield rows.

(** The file at [path] can be opened for writing and written. *)
Definition writable (E : env) (path : string) : Prop :=
  open_error E path = None /\ forall n, write_error E path n = None.

End Spec.

(* ------------------------------------------------------------------ *)
(** ** Sample library behaviour, for the examples *)

Module Sample.

Definition digit (c : ascii) : option Z :=
  let n := nat_of_ascii c in
  if Nat.leb 48 n && Nat.leb n 57 then Some (Z.of_nat (n - 48)) else None.

Fixpoint number (acc : Z) (s : string) : option Z :=
  match s with
  | EmptyString => Some acc
  | String c r =>
      match digit c with
      | Some d => number (10 * acc + d) r
      | None => None
      end
  end.

Definition char_at (n : nat) (c : ascii) (s : string) : bool :=
  match String.get n s with
  | Some x => Ascii.eqb x c
  | None => false
  end.

(** A parser of the one layout [YYYY-MM-DDTHH:MM:SSZ], standing in for
    the library routine where an example needs one. *)
Definition iso_strict (s : string) : option datetime :=
  if Nat.eqb (String.length s) 20 && char_at 4 "-" s && char_at 7 "-" s &&
     char_at 10 "T" s && char_at 13 ":" s && char_at 16 ":" s &&
     char_at 19 "Z" s
  then
    match number 0 (substring 0 4 s), number 0 (substring 5 2 s),
          number 0 (substring 8 2 s), number 0 (substring 11 2 s),
          number 0 (substring 14 2 s), number 0 (substring 17 2 s) with
    | Some y, Some mo, Some d, Some h, Some mi, Some sec =>
        Some (mk_datetime y mo d h mi sec 0)
    | _, _, _, _, _, _ => None
    end
  else None.

(** A clock that reads one second later at every reading. *)
Definition clock0 (n : nat) : datetime :=
  mk_datetime 2026 1 1 12 0 (Z.of_nat n) 0.

Definition modules0 : modules := mk_modules Original Original.

Definition world0 : world :=
  mk_world modules0 clock0 0 [] [] ∅.

Definition sheet_of (rows : list (list pyval)) : worksheet :=
  mk_worksheet (PStr "Sheet1") (PInt (Z.of_nat (length rows)))
    (PInt (Z.of_nat (length (hd [] rows)))) (map Yield rows).

(** A library that loads the given sheet from every path and has pandas
    return the given frame; every file can be written. *)
Definition env_of (rows : list (list pyval)) (df : DataFrame) : env :=
  mk_env (fun _ => "0.0") (fun _ => "[...]")
    (fun _ _ _ => Returned (mk_workbook (Some (sheet_of rows))))
    (fun _ _ _ => Returned df)
    (fun _ => None) (fun _ _ => None).

(** The strings pandas reads as missing values when [read_excel] is called
    with its default arguments ([keep_default_na=True]). *)
Definition default_na : list string :=
  [EmptyString; "#N/A"; "#N/A N/A"; "#NA"; "-1.#IND"; "-1.#QNAN"; "-NaN";
   "-nan"; "1.#IND"; "1.#QNAN"; "<NA>"; "N/A"; "NA"; "NULL"; "NaN"; "None";
   "n/a"; "nan"; "null"].

Definition na_value (v : pyval) : pyval :=
  match v with
  | PNone => PFloat PrimFloat.nan
  | PStr s => if existsb (String.eqb s) default_na then PFloat PrimFloat.nan else v
  | _ => v
  end.

(** The frame [pandas.read_excel(path)] builds, with its default arguments
    ([header=0]), from a sheet of text cells whose first row holds distinct
    non-empty labels: the first row gives the labels, the others the data. *)
Definition frame_of_sheet (rows : list (list pyval)) : DataFrame :=
  match rows with
  | [] => mk_DataFrame [] []
  | header :: rest => mk_DataFrame header (map (map na_value) rest)
  end.

(** The library's routine on the one layout [iso_strict] reads: the date
    and time it spells, [None] for the empty string, ValueError for any
    other string. *)
Definition iso_routine (s : string) : option parsed :=
  match s with
  | EmptyString => Some AsNone
  | _ => option_map AsDateTime (iso_strict s)
  end.




Definition argv0 : list string :=
  ["convert.py"; "in.xlsx"; "out.csv"].

End Sample.

(* ------------------------------------------------------------------ *)
(** ** Notions for the further properties *)

(** A statement that leaves the part [f] of the world as it was. *)
Definition preserves {A B} (f : world -> B) (c : M A) : Prop :=
  forall w, f (snd (c w)) = f w.

(** The file at [path], if there is one. *)
Definition file_at (path : string) (w : world) : option string :=
  files w !! path.

(** [s] with the characters of [cs] taken out. *)
Fixpoint without (cs : list ascii) (s : string) : string :=
  match s with
  | EmptyString => EmptyString
  | String c r =>
      if existsb (Ascii.eqb c) cs then without cs r
      else String c (without cs r)
  end.

(** The line convert_fmr_xlsx.py prints after row [idx]. *)
Definition progress_line (idx : nat) : string :=
  "  Processed " ++ PyStr.str_nat idx ++ " rows...".

(** The progress lines for the rows numbered [first], ..., [first + count - 1]. *)
Definition progress_lines (first count : nat) : list string :=
  map progress_line
    (List.filter (fun idx => Nat.eqb (idx mod 2000) 0) (seq first count)).

(** The f-string on the sheet, as both openpyxl scripts print it. *)
Definition sheet_text (E : env) (ws : worksheet) : string :=
  "Sheet: " ++ Py.str E (title ws) ++ ", Rows: " ++
  Py.str E (max_row ws) ++ ", Cols: " ++ Py.str E (max_column ws).

(** What [traceback.print_exc()] leaves on standard error. *)
Definition traceback_line (e : exn) : string :=
  "Traceback (most recent call last): " ++ str_exn e.

(** The AttributeError of [ws.title] when [wb.active] is [None]. *)
Definition no_title : exn :=
  PyException "'NoneType' object has no attribute 'title'".

(** Loading the workbook at [path] raises [e]. *)
Definition load_fails (E : env) (path : string) (e : exn) : Prop :=
  forall m now, load_workbook E path m now = Raised e.

(** pandas raises [e] on the file at [path]. *)
Definition read_fails (E : env) (path : string) (e : exn) : Prop :=
  forall m now, read_excel E path m now = Raised e.

(** The workbook at [path] loads and has [ws] as its active sheet. *)
Definition loads_items (E : env) (path : string) (ws : worksheet) : Prop :=
  forall m now, load_workbook E path m now = Returned (mk_workbook (Some ws)).

(** The workbook at [path] loads and has no active sheet. *)
Definition no_active_sheet (E : env) (path : string) : Prop :=
  forall m now, load_workbook E path m now = Returned (mk_workbook None).

(** The world with the module attributes rebound to [m]. *)
Definition patched_world (m : modules) (w : world) : world :=
  mk_world m (clock w) (ticks w) (stdout w) (stderr w) (files w).

(** The attributes after the patch of convert_fmr_xlsx.py. *)
Definition xlsx_patched : modules := mk_modules (Patched Xlsx) (Patched Xlsx).

(** The world once the workbook is loaded, [lines] are printed and the
    output file is open. *)
Definition opened_world (out : string) (lines : list string) (w : world) : world :=
  mk_world (mods w) (clock w) (S (ticks w)) (app (stdout w) lines) (stderr w)
    (<[out := EmptyString]> (files w)).

(** The fields convert_fmr_xlsx.py has the writer write for [rows]. *)
Definition rendered_xlsx (E : env) (rows : list (list pyval)) : list (list string) :=
  map (fun row => map (Py.csv_field E) (FmrXlsx.render_row row)) rows.

(** Library behaviour for the examples of the further properties. *)
Module Cases.

Definition env_with (load : string -> lib workbook)
    (read : string -> lib DataFrame) (open_err : string -> option exn)
    (write_err : string -> nat -> option exn) : env :=
  mk_env (fun _ => "0.0") (fun _ => "[...]") load read open_err write_err.

(** Every load raises [e]. *)
Definition env_failing (e : exn) : env :=
  env_with (fun _ _ _ => Raised e) (fun _ _ _ => Raised e)
    (fun _ => None) (fun _ _ => None).

(** Every workbook holds the sheet [ws]. *)
Definition env_sheet (ws : worksheet) (open_err : string -> option exn)
    (write_err : string -> nat -> option exn) : env :=
  env_with (fun _ _ _ => Returned (mk_workbook (Some ws)))
    (fun _ _ _ => Returned (mk_DataFrame [] [])) open_err write_err.

(** Every workbook is without an active sheet. *)
Definition env_no_sheet : env :=
  env_with (fun _ _ _ => Returned (mk_workbook None))
    (fun _ _ _ => Returned (mk_DataFrame [] []))
    (fun _ => None) (fun _ _ => None).

Definition not_found : exn :=
  PyException "[Errno 2] No such file or directory: 'in.xlsx'".

Definition interrupt : exn := BaseOther "KeyboardInterrupt".

Definition denied : exn := PyException "[Errno 13] Permission denied".

Definition bad_cell : exn := PyException "could not read the row".

Definition row1 : list pyval := [PStr "a"; PNone].
Definition row2 : list pyval := [PInt 3; PBool true].

(** A sheet whose second row cannot be read. *)
Definition broken_sheet : worksheet :=
  mk_worksheet (PStr "Sheet1") (PInt 2) (PInt 2) [Yield row1; IterError bad_cell].

End Cases.

(* ================================================================== *)
(** * Facts *)

(** ** Strings *)

Lemma append_String c s t : String c s ++ t = String c (s ++ t).
Proof. reflexivity. Qed.

Lemma append_nil t : EmptyString ++ t = t.
Proof. reflexivity. Qed.

Lemma append_nil_r s : s ++ EmptyString = s.
Proof. induction s as [|c s IH]; [reflexivity|]. now rewrite append_String, IH. Qed.

Lemma append_assoc s t u : (s ++ t) ++ u = s ++ (t ++ u).
Proof.
  induction s as [|c s IH]; [reflexivity|].
  now rewrite !append_String, IH.
Qed.

Lemma prefix_two a b s :
  String.prefix (String a (String b EmptyString)) s = PyStr.starts2 a b s.
Proof.
  destruct s as [|x [|y r]]; simpl.
  - reflexivity.
  - destruct (ascii_dec a x); reflexivity.
  - destruct (ascii_dec a x) as [->|Hax].
    + rewrite Ascii.eqb_refl. simpl.
      destruct (ascii_dec b y) as [->|Hby].
      * rewrite Ascii.eqb_refl. now destruct r.
      * apply not_eq_sym in Hby. apply Ascii.eqb_neq in Hby. now rewrite Hby.
    + apply not_eq_sym in Hax. apply Ascii.eqb_neq in Hax. now rewrite Hax.
Qed.

Lemma replace_from_0 old new c r :
  PyStr.replace_from old new 0 (String c r) =
  if String.prefix old (String c r)
  then new ++ PyStr.replace_from old new (String.length old - 1) r
  else String c (PyStr.replace_from old new 0 r).
Proof. reflexivity. Qed.

Lemma replace_from_S old new k c r :
  PyStr.replace_from old new (S k) (String c r) = PyStr.replace_from old new k r.
Proof. reflexivity. Qed.

Lemma replace2_cons a b new x y r :
  PyStr.replace2 a b new (String x (String y r)) =
  if Ascii.eqb x a && Ascii.eqb y b then new ++ PyStr.replace2 a b new r
  else String x (PyStr.replace2 a b new (String y r)).
Proof. reflexivity. Qed.

Lemma replace_two_gen a b new n :
  forall s, String.length s <= n ->
    PyStr.replace_from (String a (String b EmptyString)) new 0 s = PyStr.replace2 a b new s.
Proof.
  induction n as [|n IH]; intros s Hn.
  - destruct s; [reflexivity | simpl in Hn; lia].
  - destruct s as [|x [|y r]].
    + reflexivity.
    + rewrite replace_from_0, prefix_two. reflexivity.
    + rewrite replace_from_0, prefix_two, replace2_cons. cbn [PyStr.starts2].
      simpl in Hn.
      destruct (Ascii.eqb x a && Ascii.eqb y b).
      * cbn [String.length Nat.sub]. rewrite replace_from_S.
        f_equal. apply IH. lia.
      * f_equal. apply IH. simpl. lia.
Qed.

Lemma replace_two a b new s :
  PyStr.replace (String a (String b EmptyString)) new s = PyStr.replace2 a b new s.
Proof. apply (replace_two_gen a b new (String.length s)). lia. Qed.

Lemma contains_cons a b x t :
  PyStr.contains (String a (String b EmptyString)) (String x t) =
  (Ascii.eqb x a && PyStr.first_is b t) || PyStr.contains (String a (String b EmptyString)) t.
Proof.
  cbn [PyStr.contains]. rewrite prefix_two.
  destruct t; cbn [PyStr.starts2 PyStr.first_is]; [now rewrite andb_false_r | reflexivity].
Qed.

Lemma first_replace2 a b c k s :
  Ascii.eqb a k = false ->
  PyStr.first_is k (PyStr.replace2 a b (String a (String c EmptyString)) s) = true ->
  PyStr.first_is k s = true /\ PyStr.starts2 a b s = false.
Proof.
  intros Hak. destruct s as [|x [|y r]].
  - discriminate.
  - cbn. intros ->. split; reflexivity.
  - rewrite replace2_cons. cbn [PyStr.starts2].
    destruct (Ascii.eqb x a && Ascii.eqb y b) eqn:Hxy.
    + rewrite !append_String. cbn [PyStr.first_is]. rewrite Hak. discriminate.
    + cbn [PyStr.first_is]. intros ->. split; reflexivity.
Qed.

(** No [k b] in the result when the input has none, or when [k] is the
    character the replacement looks for. *)
Lemma contains_replace2 a b c k n :
  Ascii.eqb c b = false -> Ascii.eqb c k = false ->
  Ascii.eqb a b = false ->
  forall s, String.length s <= n ->
    PyStr.contains (String k (String b EmptyString)) s = false \/ k = a ->
    PyStr.contains (String k (String b EmptyString))
      (PyStr.replace2 a b (String a (String c EmptyString)) s) = false.
Proof.
  intros Hcb Hck Hab. induction n as [|n IH]; intros s Hn Hs.
  - destruct s; [reflexivity | simpl in Hn; lia].
  - destruct s as [|x [|y r]].
    + reflexivity.
    + cbn [PyStr.replace2]. rewrite contains_cons. cbn. now rewrite andb_false_r.
    + simpl in Hn. rewrite replace2_cons.
      destruct (Ascii.eqb x a && Ascii.eqb y b) eqn:Hxy.
      * rewrite !append_String, append_nil, !contains_cons. cbn [PyStr.first_is].
        rewrite Hcb, Hck, andb_false_r. cbn [orb andb].
        apply IH; [lia|].
        destruct Hs as [Hs| ->]; [|now right]. left.
        rewrite !contains_cons in Hs.
        apply orb_false_elim in Hs as [_ Hs].
        apply orb_false_elim in Hs as [_ Hs]. exact Hs.
      * rewrite contains_cons.
        assert (Hrest : PyStr.contains (String k (String b EmptyString))
                  (PyStr.replace2 a b (String a (String c EmptyString)) (String y r)) = false).
        { apply IH; [simpl; lia|].
          destruct Hs as [Hs| ->]; [|now right]. left.
          rewrite contains_cons in Hs.
          apply orb_false_elim in Hs as [_ Hs]. exact Hs. }
        rewrite Hrest, orb_false_r.
        destruct (Ascii.eqb x k) eqn:Hxk; [|reflexivity]. cbn [andb].
        destruct (PyStr.first_is b (PyStr.replace2 a b (String a (String c EmptyString)) (String y r))) eqn:Hf;
          [|reflexivity].
        apply first_replace2 in Hf as [Hf Hst]; [|exact Hab].
        cbn [PyStr.first_is] in Hf.
        destruct Hs as [Hs| ->].
        -- rewrite contains_cons in Hs. cbn [PyStr.first_is] in Hs.
           rewrite Hxk, Hf in Hs. discriminate.
        -- rewrite Hxk, Hf in Hxy. discriminate.
Qed.

(** ** Writing a CSV text and reading it back *)

Module CsvFacts.
Import Csv.

Lemma run_app s t : forall rd, run rd (s ++ t) = run (run rd s) t.
Proof.
  induction s as [|c s IH]; intros rd; [reflexivity|].
  rewrite append_String. cbn [run]. apply IH.
Qed.

Lemma special_false c :
  special crlf c = false ->
  Ascii.eqb c COMMA = false /\ Ascii.eqb c DQ = false /\ is_newline c = false.
Proof.
  unfold special, is_newline, crlf. cbn [occurs]. rewrite orb_false_r. intros H.
  apply orb_false_elim in H as [H Hnl].
  apply orb_false_elim in H as [H ?].
  repeat split; assumption.
Qed.

Lemma run_plain s : forall rd,
  needs_quote crlf s = false -> state rd = IN_FIELD ->
  run rd s = mk_reader IN_FIELD (field rd ++ s) (fields rd) (records rd).
Proof.
  induction s as [|c s IH]; intros rd Hq Hst.
  - cbn [run]. rewrite append_nil_r. destruct rd; cbn in *. now subst.
  - cbn [needs_quote] in Hq. apply orb_false_elim in Hq as [Hc Hq].
    apply special_false in Hc as (Hcomma & _ & Hnl).
    cbn [run]. unfold step at 1. rewrite Hst, Hnl, Hcomma.
    rewrite IH by (assumption || reflexivity).
    cbn [add_char field fields records]. now rewrite append_assoc.
Qed.

Lemma run_quoted s : forall rd,
  state rd = IN_QUOTED_FIELD ->
  run rd (double_quotes s) =
  mk_reader IN_QUOTED_FIELD (field rd ++ s) (fields rd) (records rd).
Proof.
  induction s as [|c s IH]; intros rd Hst.
  - cbn [run double_quotes]. rewrite append_nil_r. destruct rd; cbn in *. now subst.
  - cbn [double_quotes]. destruct (Ascii.eqb c DQ) eqn:Hc.
    + apply Ascii.eqb_eq in Hc. subst c.
      cbn [run]. unfold step at 2. rewrite Hst. rewrite Ascii.eqb_refl.
      unfold step at 1. cbn [state]. rewrite Ascii.eqb_refl.
      rewrite IH by reflexivity.
      cbn [add_char field fields records]. now rewrite append_assoc.
    + cbn [run]. unfold step at 1. rewrite Hst, Hc.
      rewrite IH by reflexivity.
      cbn [add_char field fields records]. now rewrite append_assoc.
Qed.

Lemma run_field f rd :
  state rd = START_FIELD -> field rd = EmptyString ->
  exists st, field_done st = true /\
    run rd (field_text crlf f) = mk_reader st f (fields rd) (records rd).
Proof.
  intros Hst Hf. unfold field_text. destruct (needs_quote crlf f) eqn:Hq.
  - exists QUOTE_IN_QUOTED_FIELD. split; [reflexivity|].
    cbn [run]. unfold step at 1. rewrite Hst. unfold start_field.
    change (is_newline DQ) with false. rewrite Ascii.eqb_refl. cbv iota.
    rewrite run_app, run_quoted by reflexivity.
    cbn [run field fields records]. unfold step. cbn [state].
    rewrite Ascii.eqb_refl. cbn [field fields records]. now rewrite Hf.
  - destruct f as [|c f].
    + exists START_FIELD. split; [reflexivity|]. cbn [run].
      destruct rd; cbn in *. now subst.
    + exists IN_FIELD. split; [reflexivity|].
      cbn [needs_quote] in Hq. apply orb_false_elim in Hq as [Hc Hq].
      apply special_false in Hc as (Hcomma & Hdq & Hnl).
      cbn [run]. unfold step at 1. rewrite Hst. unfold start_field.
      rewrite Hnl, Hdq, Hcomma.
      rewrite run_plain by (assumption || reflexivity).
      cbn [add_char field fields records]. now rewrite Hf.
Qed.

Lemma step_comma rd :
  field_done (state rd) = true -> step rd COMMA = save_field START_FIELD rd.
Proof.
  unfold step. destruct (state rd); try discriminate; intros _; reflexivity.
Qed.

Lemma newline_not c :
  is_newline c = true -> Ascii.eqb c DQ = false /\ Ascii.eqb c COMMA = false.
Proof.
  unfold is_newline. intros H. apply orb_true_iff in H as [H|H];
    apply Ascii.eqb_eq in H; subst c; split; reflexivity.
Qed.

Lemma step_newline rd c :
  field_done (state rd) = true -> is_newline c = true ->
  step rd c = end_record c rd.
Proof.
  intros Hd Hc. destruct (newline_not c Hc) as [Hdq Hcomma].
  unfold step, start_field.
  destruct (state rd); try discriminate; now rewrite ?Hdq, ?Hcomma, ?Hc.
Qed.

Lemma run_fields fs : forall rd c rest,
  fs <> [] -> state rd = START_FIELD -> field rd = EmptyString ->
  is_newline c = true ->
  run rd (join_fields crlf fs ++ String c rest) =
  run (mk_reader (after_newline c) EmptyString []
         (records rd ++ [fields rd ++ fs])%list) rest.
Proof.
  induction fs as [|f fs IH]; intros rd c rest Hne Hst Hf Hc; [congruence|].
  destruct (run_field f rd Hst Hf) as (st & Hdone & Hrun).
  destruct fs as [|g fs].
  - cbn [join_fields]. rewrite run_app, Hrun. cbn [run].
    rewrite step_newline by assumption. reflexivity.
  - change (join_fields crlf (f :: g :: fs))
      with (field_text crlf f ++ String COMMA (join_fields crlf (g :: fs))).
    rewrite append_assoc, run_app, Hrun, append_String. cbn [run].
    rewrite step_comma by assumption.
    rewrite IH by (try assumption; try reflexivity; congruence).
    cbn [save_field field fields records]. now rewrite <- app_assoc.
Qed.

(** A record text that is not empty does not begin with a line end. *)
Lemma field_text_first f c b :
  field_text crlf f = String c b -> is_newline c = false.
Proof.
  unfold field_text. destruct (needs_quote crlf f) eqn:Hq.
  - intros [= <- _]. reflexivity.
  - intros ->. cbn [needs_quote] in Hq. apply orb_false_elim in Hq as [Hc _].
    now apply special_false in Hc.
Qed.

Lemma join_fields_first fs c b :
  join_fields crlf fs = String c b -> is_newline c = false.
Proof.
  destruct fs as [|f [|g fs]].
  - discriminate.
  - apply field_text_first.
  - change (join_fields crlf (f :: g :: fs))
      with (field_text crlf f ++ String COMMA (join_fields crlf (g :: fs))).
    destruct (field_text crlf f) as [|c' b'] eqn:Hf.
    + rewrite append_nil. intros [= <- _]. reflexivity.
    + rewrite append_String. intros [= <- _]. now apply field_text_first in Hf.
Qed.

Lemma field_text_empty f : field_text crlf f = EmptyString -> f = EmptyString.
Proof.
  unfold field_text. destruct (needs_quote crlf f); [discriminate | auto].
Qed.

Lemma join_fields_empty fs :
  fs <> [] -> join_fields crlf fs = EmptyString -> fs = [EmptyString].
Proof.
  destruct fs as [|f [|g fs]]; intros Hne H.
  - congruence.
  - apply field_text_empty in H. now subst.
  - change (join_fields crlf (f :: g :: fs))
      with (field_text crlf f ++ String COMMA (join_fields crlf (g :: fs))) in H.
    destruct (field_text crlf f); discriminate.
Qed.

Lemma run_record fs rd :
  state rd = START_RECORD -> field rd = EmptyString -> fields rd = [] ->
  run rd (record_text crlf fs) =
  mk_reader START_RECORD EmptyString [] (records rd ++ [fs])%list.
Proof.
  intros Hst Hf Hfs. destruct rd as [st fl fls recs].
  cbn [state field fields records] in *. subst st fl fls.
  unfold record_text. destruct fs as [|f0 fs0] eqn:Efs.
  - reflexivity.
  - rewrite <- Efs. assert (Hne : fs <> []) by (subst; discriminate).
    replace (Nat.ltb 0 (length fs)) with true by (subst; reflexivity).
    cbn [andb]. clear Efs f0 fs0.
    destruct (join_fields crlf fs) as [|c b] eqn:Hbody.
    + apply join_fields_empty in Hbody; [|assumption]. subst fs.
      reflexivity.
    + cbn [String.length Nat.eqb].
      pose proof (join_fields_first fs c b Hbody) as Hc.
      assert (Hstep : forall t,
                 run (mk_reader START_RECORD EmptyString [] recs) (String c t) =
                 run (mk_reader START_FIELD EmptyString [] recs) (String c t)).
      { intros t. cbn [run]. f_equal. unfold step. cbn [state].
        unfold start_record. now rewrite Hc. }
      rewrite append_String, Hstep, <- append_String, <- Hbody.
      unfold crlf at 2.
      rewrite run_fields by (try assumption; reflexivity). reflexivity.
Qed.

Lemma run_text rows : forall rd,
  state rd = START_RECORD -> field rd = EmptyString -> fields rd = [] ->
  run rd (text crlf rows) =
  mk_reader START_RECORD EmptyString [] (records rd ++ rows)%list.
Proof.
  induction rows as [|r rows IH]; intros rd Hst Hf Hfs.
  - cbn [text run]. rewrite app_nil_r. destruct rd; cbn in *. now subst.
  - cbn [text]. rewrite run_app, run_record by assumption.
    rewrite IH by (assumption || reflexivity).
    cbn [records]. now rewrite <- app_assoc.
Qed.

(** What [csv.writer] writes under its own line terminator, [csv.reader]
    reads back record for record, field for field. *)
Theorem read_text rows : read (text crlf rows) = rows.
Proof.
  unfold read. rewrite run_text by (assumption || reflexivity).
  reflexivity.
Qed.

End CsvFacts.

(** ** The repair *)

(** After [replace(a b, a c)] no [a b] is left. *)
Lemma replace_removes a b c s :
  Ascii.eqb c b = false -> Ascii.eqb c a = false -> Ascii.eqb a b = false ->
  PyStr.contains (String a (String b EmptyString))
    (PyStr.replace (String a (String b EmptyString))
       (String a (String c EmptyString)) s) = false.
Proof.
  intros Hcb Hca Hab. rewrite replace_two.
  apply (contains_replace2 a b c a (String.length s)); auto.
Qed.

(** [replace(a b, a c)] brings in no [k b] that was not there. *)
Lemma replace_keeps_absent a b c k s :
  Ascii.eqb c b = false -> Ascii.eqb c k = false -> Ascii.eqb a b = false ->
  PyStr.contains (String k (String b EmptyString)) s = false ->
  PyStr.contains (String k (String b EmptyString))
    (PyStr.replace (String a (String b EmptyString))
       (String a (String c EmptyString)) s) = false.
Proof.
  intros Hcb Hck Hab Hs. rewrite replace_two.
  apply (contains_replace2 a b c k (String.length s)); auto.
Qed.

Lemma repair_no_dash_blank s : PyStr.contains "- " (Tolerant.repair s) = false.
Proof.
  unfold Tolerant.repair.
  apply (replace_keeps_absent "T" " " "0" "-"); try reflexivity.
  apply (replace_removes "-" " " "0"); reflexivity.
Qed.

Lemma repair_no_T_blank s : PyStr.contains "T " (Tolerant.repair s) = false.
Proof.
  unfold Tolerant.repair. apply (replace_removes "T" " " "0"); reflexivity.
Qed.

(** ** The tolerant parser *)

Section ParserFacts.

Variable from_ISO8601 : string -> option parsed.

Local Abbreviation call := (Tolerant.call_parser from_ISO8601).

Lemma call_patched d v s m now :
  call (S d) (Patched v) s m now =
  match call d (utils_datetime m) (Tolerant.repair s) m now with
  | Returned t => Returned t
  | Raised e => if Tolerant.catches v e then Returned (AsDateTime now) else Raised e
  end.
Proof. reflexivity. Qed.

Lemma call_original d s m now :
  call (S d) Original s m now =
  match from_ISO8601 s with
  | Some t => Returned t
  | None => Raised (PyException ("Invalid datetime value " ++ s))
  end.
Proof. reflexivity. Qed.

(** What the parser raises, an [except Exception] clause takes. *)
Lemma call_raises_Exception d : forall p s m now e,
  call d p s m now = Raised e -> is_Exception e = true.
Proof.
  induction d as [|d IH]; intros p s m now e.
  - cbn. now intros [= <-].
  - destruct p as [|v].
    + rewrite call_original. destruct (from_ISO8601 s); [discriminate|].
      now intros [= <-].
    + rewrite call_patched.
      destruct (call d (utils_datetime m) (Tolerant.repair s) m now) as [t|e'] eqn:Hc;
        [discriminate|].
      apply IH in Hc. destruct v; cbn [Tolerant.catches]; rewrite ?Hc; discriminate.
Qed.

Lemma catches_Exception v e : is_Exception e = true -> Tolerant.catches v e = true.
Proof. destruct v; cbn; auto. Qed.

(** While the attribute holds a patched routine, the parser finds itself
    under the name [original]: the calls nest until the interpreter's
    stack is used up, and the clock reading comes back. *)
Lemma call_while_patched d : forall v v' s m now,
  utils_datetime m = Patched v' ->
  call (S d) (Patched v) s m now = Returned (AsDateTime now).
Proof.
  induction d as [|d IH]; intros v v' s m now Hm.
  - rewrite call_patched. cbn [Tolerant.call_parser].
    now rewrite catches_Exception.
  - rewrite call_patched, Hm. now rewrite (IH v' v') by assumption.
Qed.

(** While the attribute holds the library's routine, the parser hands it
    the repaired string. *)
Lemma call_while_original d v s m now :
  utils_datetime m = Original ->
  call (S (S d)) (Patched v) s m now =
  match from_ISO8601 (Tolerant.repair s) with
  | Some t => Returned t
  | None => Returned (AsDateTime now)
  end.
Proof.
  intros Hm. rewrite call_patched, Hm, call_original.
  destruct (from_ISO8601 (Tolerant.repair s)); [reflexivity|].
  now rewrite catches_Exception.
Qed.

Lemma call_returns d v s m now :
  exists t, call (S d) (Patched v) s m now = Returned t /\
            (from_ISO8601 (Tolerant.repair s) = None -> t = AsDateTime now).
Proof.
  destruct (utils_datetime m) as [|v'] eqn:Hm.
  - destruct d as [|d].
    + exists (AsDateTime now). split; [|reflexivity].
      rewrite call_patched. cbn [Tolerant.call_parser].
      now rewrite catches_Exception.
    + rewrite call_while_original by assumption.
      destruct (from_ISO8601 (Tolerant.repair s)) as [t|].
      * exists t. split; [reflexivity | discriminate].
      * exists (AsDateTime now). split; reflexivity.
  - exists (AsDateTime now). split; [|reflexivity].
    now apply call_while_patched with v'.
Qed.

End ParserFacts.

(** ** Statements that leave the module attributes alone *)

Lemma keeps_ret {A} (a : A) : keeps_mods (ret a).
Proof. intros w. reflexivity. Qed.

Lemma keeps_raise {A} (e : exn) : keeps_mods (@raise A e).
Proof. intros w. reflexivity. Qed.

Lemma keeps_bind {A B} (c : M A) (k : A -> M B) :
  keeps_mods c -> (forall a, keeps_mods (k a)) -> keeps_mods (bind c k).
Proof.
  intros Hc Hk w. unfold bind. specialize (Hc w).
  destruct (c w) as [[a|e] w1]; cbn [snd] in *.
  - now rewrite Hk.
  - exact Hc.
Qed.

Lemma keeps_try_except {A} (body : M A) filter handler :
  keeps_mods body -> (forall e, keeps_mods (handler e)) ->
  keeps_mods (try_except body filter handler).
Proof.
  intros Hb Hh w. unfold try_except. specialize (Hb w).
  destruct (body w) as [[a|e] w1]; cbn [snd] in *.
  - exact Hb.
  - destruct (filter e); cbn [snd]; [now rewrite Hh | exact Hb].
Qed.

Lemma keeps_print line : keeps_mods (print line).
Proof. intros w. reflexivity. Qed.

Lemma keeps_print_exc e : keeps_mods (print_exc e).
Proof. intros w. reflexivity. Qed.

Lemma keeps_call_lib {A} (c : lib A) : keeps_mods (call_lib c).
Proof. intros w. reflexivity. Qed.

Lemma keeps_set_file path content : keeps_mods (set_file path content).
Proof. intros w. reflexivity. Qed.

Create HintDb keeps.

#[local] Hint Resolve keeps_ret keeps_raise keeps_print keeps_print_exc
  keeps_call_lib keeps_set_file : keeps.

Section RunFacts.

Variable E : env.

Lemma keeps_open_w path : keeps_mods (Io.open_w E path).
Proof. unfold Io.open_w. destruct (open_error E path); auto with keeps. Qed.

Lemma keeps_writerow lt path n row : keeps_mods (Io.writerow E lt path n row).
Proof.
  unfold Io.writerow. destruct (write_error E path n); auto with keeps.
  intros w. reflexivity.
Qed.

Lemma keeps_xlsx_sheet_line ws : keeps_mods (FmrXlsx.sheet_line E ws).
Proof. destruct ws; cbn; auto with keeps. Qed.

Lemma keeps_xlsx_write_rows path items :
  forall idx, keeps_mods (FmrXlsx.write_rows E path idx items).
Proof.
  induction items as [|[row|e] items IH]; intros idx; cbn [FmrXlsx.write_rows];
    auto with keeps.
  apply keeps_bind; [apply keeps_writerow|]. intros _.
  apply keeps_bind; [destruct (Nat.eqb _ _); auto with keeps|]. intros _.
  apply IH.
Qed.

Lemma keeps_xlsx_convert input_file output_file :
  keeps_mods (FmrXlsx.convert E input_file output_file).
Proof.
  unfold FmrXlsx.convert.
  repeat (apply keeps_bind; [|intros ?]);
    auto using keeps_open_w, keeps_xlsx_sheet_line, keeps_xlsx_write_rows
      with keeps.
Qed.

Lemma keeps_xlsx_on_error e : keeps_mods (FmrXlsx.on_error e).
Proof.
  unfold FmrXlsx.on_error, sys_exit.
  repeat (apply keeps_bind; [|intros ?]); auto with keeps.
Qed.

Lemma keeps_2025_sheet_line ws : keeps_mods (Fmr2025.sheet_line E ws).
Proof. destruct ws; cbn; auto with keeps. Qed.

Lemma keeps_2025_collect items :
  forall rows, keeps_mods (Fmr2025.collect E rows items).
Proof.
  induction items as [|[row|e] items IH]; intros rows; cbn [Fmr2025.collect];
    auto with keeps.
Qed.

Lemma keeps_2025_writerows path rows :
  forall n, keeps_mods (Fmr2025.writerows E path n rows).
Proof.
  induction rows as [|row rows IH]; intros n; cbn [Fmr2025.writerows];
    auto with keeps.
  apply keeps_bind; [apply keeps_writerow|]. intros _. apply IH.
Qed.

Lemma keeps_2025_convert : keeps_mods (Fmr2025.convert E).
Proof.
  unfold Fmr2025.convert.
  repeat (apply keeps_bind; [|intros ?]);
    auto using keeps_open_w, keeps_2025_sheet_line, keeps_2025_collect,
      keeps_2025_writerows with keeps.
Qed.

Lemma keeps_2025_on_error e : keeps_mods (Fmr2025.on_error e).
Proof.
  unfold Fmr2025.on_error, sys_exit.
  repeat (apply keeps_bind; [|intros ?]); auto with keeps.
Qed.

(** The attributes after [try: body / finally: restore], whatever [body]
    does short of rebinding them. *)
Lemma mods_after_finally {A} (body : M A) (final : M unit) w m :
  keeps_mods body ->
  (forall w', mods w' = mods w -> mods (snd (final w')) = m) ->
  mods (snd (try_finally body final w)) = m.
Proof.
  intros Hb Hf. unfold try_finally. specialize (Hb w).
  destruct (body w) as [o w1]. specialize (Hf w1 Hb).
  destruct (final w1) as [[u|e] w2]; exact Hf.
Qed.

Lemma xlsx_patch_spec w :
  exists w1,
    FmrXlsx.patch w = (Returned (utils_datetime (mods w), descriptors_base (mods w)), w1)
    /\ mods w1 = mk_modules (Patched Xlsx) (Patched Xlsx)
    /\ clock w1 = clock w /\ ticks w1 = ticks w /\ stdout w1 = stdout w
    /\ stderr w1 = stderr w /\ files w1 = files w.
Proof.
  exists (mk_world (mk_modules (Patched Xlsx) (Patched Xlsx)) (clock w) (ticks w)
            (stdout w) (stderr w) (files w)).
  repeat split.
Qed.

Lemma xlsx_restore_spec saved w :
  mods (snd (FmrXlsx.restore saved w)) = mk_modules (fst saved) (snd saved).
Proof. reflexivity. Qed.

Lemma fmr2025_patch_spec w :
  exists w1,
    Fmr2025.patch w = (Returned (Some (utils_datetime (mods w))), w1)
    /\ mods w1 = mk_modules (Patched Fmr2025v) (descriptors_base (mods w))
    /\ clock w1 = clock w /\ ticks w1 = ticks w /\ stdout w1 = stdout w
    /\ stderr w1 = stderr w /\ files w1 = files w.
Proof.
  exists (mk_world (mk_modules (Patched Fmr2025v) (descriptors_base (mods w)))
            (clock w) (ticks w) (stdout w) (stderr w) (files w)).
  repeat split.
Qed.

End RunFacts.

(** ** Runs in which nothing fails *)

Lemma file_content_insert path content m c t o e f :
  file_content path (mk_world m c t o e (<[path := content]> f)) = content.
Proof. unfold file_content. cbn [files]. now rewrite lookup_insert_eq. Qed.

Lemma text_app lt (a b : list (list string)) :
  Csv.text lt (a ++ b)%list = Csv.text lt a ++ Csv.text lt b.
Proof.
  induction a as [|r a IH]; [reflexivity|].
  cbn [app Csv.text]. now rewrite IH, append_assoc.
Qed.

Section OkRuns.

Variable E : env.

Lemma writerow_ok lt path n row w :
  write_error E path n = None ->
  Io.writerow E lt path n row w =
  (Returned tt,
   mk_world (mods w) (clock w) (ticks w) (stdout w) (stderr w)
     (<[path := file_content path w ++ Py.writerow_text E lt row]> (files w))).
Proof. intros H. unfold Io.writerow. now rewrite H. Qed.

Lemma open_w_ok path w :
  open_error E path = None ->
  Io.open_w E path w =
  (Returned tt,
   mk_world (mods w) (clock w) (ticks w) (stdout w) (stderr w)
     (<[path := EmptyString]> (files w))).
Proof. intros H. unfold Io.open_w. now rewrite H. Qed.

(** The records the loop of convert_fmr_xlsx.py writes for [rows]. *)
Lemma xlsx_write_rows_ok out rows :
  (forall n, write_error E out n = None) ->
  forall idx w, exists w',
    FmrXlsx.write_rows E out idx (map Yield rows) w = (Returned tt, w') /\
    file_content out w' =
    file_content out w ++
    Csv.text Csv.crlf
      (map (fun row => map (Py.csv_field E) (FmrXlsx.render_row row)) rows).
Proof.
  intros Hw. induction rows as [|row rows IH]; intros idx w.
  - exists w. split; [reflexivity|]. cbn [map Csv.text]. now rewrite append_nil_r.
  - cbn [map FmrXlsx.write_rows]. unfold bind at 1.
    rewrite writerow_ok by apply Hw.
    set (w1 := mk_world _ _ _ _ _ _).
    assert (H1 : file_content out w1 =
                 file_content out w ++ Py.writerow_text E Csv.crlf (FmrXlsx.render_row row))
      by apply file_content_insert.
    unfold bind at 1.
    destruct (Nat.eqb (idx mod 2000) 0).
    + cbn [print]. destruct (IH (S idx)
        (mk_world (mods w1) (clock w1) (ticks w1)
           (app (stdout w1) ["  Processed " ++ PyStr.str_nat idx ++ " rows..."])
           (stderr w1) (files w1))) as (w' & Hrun & Hc).
      exists w'. split; [exact Hrun|]. rewrite Hc.
      change (file_content out (mk_world (mods w1) (clock w1) (ticks w1)
                (app (stdout w1) ["  Processed " ++ PyStr.str_nat idx ++ " rows..."])
                (stderr w1) (files w1))) with (file_content out w1).
      rewrite H1. cbn [Csv.text]. now rewrite append_assoc.
    + cbn [ret]. destruct (IH (S idx) w1) as (w' & Hrun & Hc).
      exists w'. split; [exact Hrun|]. rewrite Hc, H1. cbn [Csv.text].
      now rewrite append_assoc.
Qed.

Lemma xlsx_convert_ok inp out ws rows w :
  load_workbook E inp (mods w) (clock w (ticks w)) = Returned (mk_workbook (Some ws)) ->
  iter_rows ws = map Yield rows ->
  Spec.writable E out ->
  exists w',
    FmrXlsx.convert E inp out w = (Returned tt, w') /\
    file_content out w' =
    Csv.text Csv.crlf
      (map (fun row => map (Py.csv_field E) (FmrXlsx.render_row row)) rows).
Proof.
  intros Hload Hrows [Hopen Hwrite]. unfold FmrXlsx.convert.
  unfold bind at 1. cbn [print]. unfold bind at 1. unfold call_lib.
  cbn [mods clock ticks]. rewrite Hload. cbn [active FmrXlsx.sheet_line].
  unfold bind at 1. cbn [ret]. unfold bind at 1. cbn [print].
  unfold bind at 1. rewrite open_w_ok by exact Hopen.
  set (w1 := mk_world _ _ _ _ _ (<[out := EmptyString]> _)).
  rewrite Hrows. unfold bind at 1.
  destruct (xlsx_write_rows_ok out rows Hwrite 1 w1) as (w2 & Hrun & Hc).
  rewrite Hrun. cbn [print]. eexists. split; [reflexivity|].
  change (file_content out (mk_world (mods w2) (clock w2) (ticks w2)
            (app (stdout w2) ["✅ Successfully converted to " ++ out])
            (stderr w2) (files w2))) with (file_content out w2).
  rewrite Hc. unfold w1. now rewrite file_content_insert, append_nil.
Qed.

Lemma xlsx_main_ok prog inp out ws rows w :
  load_workbook E inp (mk_modules (Patched Xlsx) (Patched Xlsx)) (clock w (ticks w))
    = Returned (mk_workbook (Some ws)) ->
  iter_rows ws = map Yield rows ->
  Spec.writable E out ->
  exists w',
    FmrXlsx.main E [prog; inp; out] w = (Returned tt, w') /\
    file_content out w' =
    Csv.text Csv.crlf
      (map (fun row => map (Py.csv_field E) (FmrXlsx.render_row row)) rows).
Proof.
  intros Hload Hrows Hwr. unfold FmrXlsx.main.
  cbn [length Nat.eqb negb nth]. unfold bind at 1.
  destruct (xlsx_patch_spec w) as (w1 & Hp & Hm & Hc & Ht & _).
  rewrite Hp. unfold try_finally, try_except.
  destruct (xlsx_convert_ok inp out ws rows w1) as (w2 & Hrun & Hcontent);
    [ now rewrite Hm, Hc, Ht | assumption | assumption | ].
  rewrite Hrun. eexists. split; [reflexivity|]. exact Hcontent.
Qed.

Lemma fmr2025_collect_ok rows :
  forall acc w,
    Fmr2025.collect E acc (map Yield rows) w =
    (Returned (acc ++ map (Fmr2025.render_row E) rows)%list, w).
Proof.
  induction rows as [|row rows IH]; intros acc w.
  - cbn [map Fmr2025.collect ret]. now rewrite app_nil_r.
  - cbn [map Fmr2025.collect]. rewrite IH. now rewrite <- app_assoc.
Qed.

Lemma fmr2025_writerows_ok out rows :
  (forall n, write_error E out n = None) ->
  forall n w, exists w',
    Fmr2025.writerows E out n rows w = (Returned tt, w') /\
    file_content out w' =
    file_content out w ++ Csv.text Csv.crlf (map (map (Py.csv_field E)) rows).
Proof.
  intros Hw. induction rows as [|row rows IH]; intros n w.
  - exists w. split; [reflexivity|]. cbn [map Csv.text]. now rewrite append_nil_r.
  - cbn [Fmr2025.writerows]. unfold bind at 1.
    rewrite writerow_ok by apply Hw.
    set (w1 := mk_world _ _ _ _ _ _).
    assert (H1 : file_content out w1 =
                 file_content out w ++ Py.writerow_text E Csv.crlf row)
      by apply file_content_insert.
    destruct (IH (S n) w1) as (w' & Hrun & Hc).
    exists w'. split; [exact Hrun|]. rewrite Hc, H1. cbn [map Csv.text].
    now rewrite append_assoc.
Qed.

Lemma fmr2025_convert_ok ws rows w :
  load_workbook E Fmr2025.input_path (mods w) (clock w (ticks w))
    = Returned (mk_workbook (Some ws)) ->
  iter_rows ws = map Yield rows ->
  Spec.writable E Fmr2025.output_path ->
  exists w',
    Fmr2025.convert E w = (Returned tt, w') /\
    file_content Fmr2025.output_path w' =
    Csv.text Csv.crlf
      (map (fun row => map (Py.csv_field E) (Fmr2025.render_row E row)) rows).
Proof.
  intros Hload Hrows [Hopen Hwrite]. unfold Fmr2025.convert.
  unfold bind at 1. cbn [print]. unfold bind at 1. unfold call_lib.
  cbn [mods clock ticks]. rewrite Hload. cbn [active Fmr2025.sheet_line].
  unfold bind at 1. cbn [ret]. unfold bind at 1. cbn [print].
  unfold bind at 1. rewrite Hrows, fmr2025_collect_ok. cbn [app].
  unfold bind at 1. cbn [print].
  unfold bind at 1. rewrite open_w_ok by exact Hopen.
  set (w1 := mk_world _ _ _ _ _ (<[Fmr2025.output_path := EmptyString]> _)).
  unfold bind at 1.
  destruct (fmr2025_writerows_ok Fmr2025.output_path
              (map (Fmr2025.render_row E) rows) Hwrite 1 w1) as (w2 & Hrun & Hc).
  rewrite Hrun. cbn [print]. eexists. split; [reflexivity|].
  change (file_content Fmr2025.output_path
            (mk_world (mods w2) (clock w2) (ticks w2)
               (app (stdout w2)
                  ["✅ Successfully converted to " ++ Fmr2025.output_path])
               (stderr w2) (files w2)))
    with (file_content Fmr2025.output_path w2).
  rewrite Hc. unfold w1. rewrite file_content_insert, append_nil.
  now rewrite map_map.
Qed.

Lemma fmr2025_script_ok ws rows w :
  load_workbook E Fmr2025.input_path
    (mk_modules (Patched Fmr2025v) (descriptors_base (mods w)))
    (clock w (ticks w)) = Returned (mk_workbook (Some ws)) ->
  iter_rows ws = map Yield rows ->
  Spec.writable E Fmr2025.output_path ->
  exists w',
    Fmr2025.script E w = (Returned tt, w') /\
    file_content Fmr2025.output_path w' =
    Csv.text Csv.crlf
      (map (fun row => map (Py.csv_field E) (Fmr2025.render_row E row)) rows).
Proof.
  intros Hload Hrows Hwr. unfold Fmr2025.script. unfold bind at 1.
  destruct (fmr2025_patch_spec w) as (w1 & Hp & Hm & Hc & Ht & _).
  rewrite Hp. unfold try_finally, try_except.
  destruct (fmr2025_convert_ok ws rows w1) as (w2 & Hrun & Hcontent);
    [ now rewrite Hm, Hc, Ht | assumption | assumption | ].
  rewrite Hrun. eexists. split; [reflexivity|]. exact Hcontent.
Qed.

End OkRuns.

(** ** What the writer takes for a rendered row *)

Lemma xlsx_field_texts E row :
  map (Py.csv_field E) (FmrXlsx.render_row row) = map (Spec.cell_text E) row.
Proof.
  unfold FmrXlsx.render_row. rewrite map_map. apply map_ext.
  intros [| s | [|] | z | f | t]; reflexivity.
Qed.

Lemma fmr2025_field_texts E row :
  map (Py.csv_field E) (Fmr2025.render_row E row) = map (Spec.cell_text E) row.
Proof.
  unfold Fmr2025.render_row. rewrite map_map. apply map_ext.
  intros [| s | [|] | z | f | t]; reflexivity.
Qed.

Lemma shape_of_records R C (records : list (list string)) content :
  Csv.read content = records ->
  length records = R -> Forall (fun r => length r = C) records ->
  Spec.csv_shape R C content.
Proof. intros <- H1 H2. split; assumption. Qed.

Lemma Forall_map_length {A B} (f : A -> B) C (rows : list (list A)) :
  Forall (fun row => length row = C) rows ->
  Forall (fun r => length r = C) (map (map f) rows).
Proof.
  induction 1 as [|row rows Hrow _ IH]; cbn [map]; constructor.
  - now rewrite length_map.
  - exact IH.
Qed.

(* ================================================================== *)
(** * The claims *)

(** ** C1 *)

(** The docstring's own example is repaired, and the sample parser reads
    the result. *)
Example repair_docstring_example :
  Tolerant.repair "2025- 2-18T20:40:31Z" = "2025-02-18T20:40:31Z" /\
  Sample.iso_strict "2025-02-18T20:40:31Z"
    = Some (mk_datetime 2025 2 18 20 40 31 0).
Proof. split; reflexivity. Qed.

(** Three blanks in a row come out as two: the pass over doubled blanks
    does not look at its own output. *)
Example repair_three_blanks : Tolerant.repair "a   b" = "a  b".
Proof. reflexivity. Qed.

(** The repair inserts no zero after the separator [:]: the timestamp
    below has a blank after a colon and comes back unchanged. *)
Lemma repair_leaves_colon_blank :
  Tolerant.repair "2025-02-18T20: 4:31Z" = "2025-02-18T20: 4:31Z" /\
  Spec.zero_after_every_separator (Tolerant.repair "2025-02-18T20: 4:31Z") = false.
Proof. split; reflexivity. Qed.

(** Outside a run, while the attribute holds the library's routine, the
    parser hands that routine the repaired string. *)
Example unpatched_parser_on_docstring_example :
  Tolerant.call_parser Sample.iso_routine 2 (Patched Xlsx)
    "2025- 2-18T20:40:31Z" Sample.modules0 (Sample.clock0 0)
  = Returned (AsDateTime (mk_datetime 2025 2 18 20 40 31 0)).
Proof. reflexivity. Qed.

(** C1 fails on the code: in the state either script's patch leaves, which
    is the state of every call made during a run, the name [original] the
    parser imports is the parser itself.  The docstring's example, which
    the library reads once it is repaired, comes back as the clock
    reading, at every stack depth that admits the call, in every world,
    under every clock reading: the library's routine is never reached. *)
Theorem C1_patched_parser_does_not_delegate
    (d : nat) (w : world) (now : datetime) :
  Sample.iso_routine (Tolerant.repair "2025- 2-18T20:40:31Z")
    = Some (AsDateTime (mk_datetime 2025 2 18 20 40 31 0)) /\
  Tolerant.call_parser Sample.iso_routine (S d) (Patched Xlsx)
    "2025- 2-18T20:40:31Z" (mods (snd (FmrXlsx.patch w))) now
    = Returned (AsDateTime now) /\
  Tolerant.call_parser Sample.iso_routine (S d) (Patched Fmr2025v)
    "2025- 2-18T20:40:31Z" (mods (snd (Fmr2025.patch w))) now
    = Returned (AsDateTime now).
Proof.
  split; [reflexivity|]. split.
  - now apply call_while_patched with Xlsx.
  - now apply call_while_patched with Fmr2025v.
Qed.

(** ** C2 *)



(** ** C3 *)

(** C3: after a run of either tolerant script the two attributes hold what
    they held before it, whatever the library, the files or the arguments
    did to the run. *)
Theorem C3_attributes_restored (E : env) (argv : list string) (w : world) :
  mods (snd (FmrXlsx.main E argv w)) = mods w /\
  mods (snd (Fmr2025.script E w)) = mods w.
Proof.
  split.
  - unfold FmrXlsx.main. destruct (negb (Nat.eqb (length argv) 3)).
    + reflexivity.
    + unfold bind at 1.
      destruct (xlsx_patch_spec w) as (w1 & -> & _).
      apply mods_after_finally.
      * apply keeps_try_except;
          [apply keeps_xlsx_convert | apply keeps_xlsx_on_error].
      * intros w' _. rewrite xlsx_restore_spec. cbn [fst snd].
        now destruct (mods w).
  - unfold Fmr2025.script, bind at 1.
    destruct (fmr2025_patch_spec w) as (w1 & -> & Hm & _).
    apply mods_after_finally.
    + apply keeps_try_except;
        [apply keeps_2025_convert | apply keeps_2025_on_error].
    + intros w' Hw'. cbn [Fmr2025.restore]. unfold set_utils_datetime.
      cbn. rewrite Hw', Hm. cbn. now destruct (mods w).
Qed.

(** ** C4 *)

(** The patch of convert_fmr_xlsx.py rebinds both attributes. *)
Lemma xlsx_patch_rebinds_both (w : world) :
  mods (snd (FmrXlsx.patch w)) = mk_modules (Patched Xlsx) (Patched Xlsx).
Proof. reflexivity. Qed.

(** C4 fails in convert_fmr_2025.py: its patch rebinds the attribute of
    [openpyxl.utils.datetime] only; [openpyxl.descriptors.base] keeps the
    routine it held, which the sibling script rebinds as well. *)
Theorem C4_fmr2025_patch_leaves_descriptors_base (w : world) :
  utils_datetime (mods (snd (Fmr2025.patch w))) = Patched Fmr2025v /\
  descriptors_base (mods (snd (Fmr2025.patch w))) = descriptors_base (mods w).
Proof. split; reflexivity. Qed.

Example fmr2025_patch_from_original :
  mods (snd (Fmr2025.patch Sample.world0)) = mk_modules (Patched Fmr2025v) Original.
Proof. reflexivity. Qed.

(** ** C5 *)

(** C5, as stated, fails for convert_excel.py.  The worksheet below has
    two rows of one cell; pandas, reading it under its defaults, takes
    the first row for the column labels and the text [NA] of the second
    for a missing value, and the run, which succeeds, leaves a second
    record whose field is empty: it is not the text of the cell of the
    second row. *)
Lemma C5_pandas_record_differs_from_row :
  let sheet := [[PStr "code"]; [PStr "NA"]] in
  let E := Sample.env_of sheet (Sample.frame_of_sheet sheet) in
  let run := ConvertExcel.script E Sample.argv0 Sample.world0 in
  Spec.sheet_shape 2 1 sheet /\
  fst run = Returned tt /\
  Csv.read (file_content "out.csv" (snd run)) = [["code"]; [EmptyString]] /\
  map (map (Spec.cell_text E)) sheet = [["code"]; ["NA"]] /\
  Csv.read (file_content "out.csv" (snd run))
    <> map (map (Spec.cell_text E)) sheet.
Proof.
  cbv zeta. split; [|split; [|split; [|split]]].
  - split; [reflexivity|]. repeat constructor.
  - vm_compute. reflexivity.
  - vm_compute. reflexivity.
  - vm_compute. reflexivity.
  - vm_compute. discriminate.
Qed.

(** C5, amended: each of the two openpyxl scripts, over a workbook that
    loads and whose active sheet has R rows of C cells, with an output
    path that can be written, ends normally and leaves R records of C
    fields, the fields of record i being the texts of the cells of row i
    in order, and nothing before the first of them.  The two halves are
    quantified apart: each script has its own workbook and paths. *)
Theorem C5_records_mirror_rows (E : env) :
  (forall (R C : nat) (rows : list (list pyval)) (prog inp out : string)
          (w : world),
      Spec.sheet_shape R C rows ->
      Spec.loads E inp rows ->
      Spec.writable E out ->
      exists w',
        FmrXlsx.main E [prog; inp; out] w = (Returned tt, w') /\
        Csv.read (file_content out w') = map (map (Spec.cell_text E)) rows /\
        Spec.csv_shape R C (file_content out w'))
  /\
  (forall (R C : nat) (rows : list (list pyval)) (w : world),
      Spec.sheet_shape R C rows ->
      Spec.loads E Fmr2025.input_path rows ->
      Spec.writable E Fmr2025.output_path ->
      exists w',
        Fmr2025.script E w = (Returned tt, w') /\
        Csv.read (file_content Fmr2025.output_path w')
          = map (map (Spec.cell_text E)) rows /\
        Spec.csv_shape R C (file_content Fmr2025.output_path w')).
Proof.
  split.
  - intros R C rows prog inp out w [HR HC] (ws & Hload & Hrows) Hout.
    destruct (xlsx_main_ok E prog inp out ws rows w (Hload _ _) Hrows Hout)
      as (w' & Hrun & Hc).
    exists w'. split; [exact Hrun|].
    assert (Hread : Csv.read (file_content out w')
                    = map (map (Spec.cell_text E)) rows).
    { rewrite Hc, CsvFacts.read_text.
      apply map_ext. intros row. apply xlsx_field_texts. }
    split; [exact Hread|].
    apply (shape_of_records R C _ _ Hread).
    + now rewrite length_map.
    + now apply Forall_map_length.
  - intros R C rows w [HR HC] (ws & Hload & Hrows) Hout.
    destruct (fmr2025_script_ok E ws rows w (Hload _ _) Hrows Hout)
      as (w' & Hrun & Hc).
    exists w'. split; [exact Hrun|].
    assert (Hread : Csv.read (file_content Fmr2025.output_path w')
                    = map (map (Spec.cell_text E)) rows).
    { rewrite Hc, CsvFacts.read_text.
      apply map_ext. intros row. apply fmr2025_field_texts. }
    split; [exact Hread|].
    apply (shape_of_records R C _ _ Hread).
    + now rewrite length_map.
    + now apply Forall_map_length.
Qed.

(** The theorem at a sheet of two rows of two cells, for both scripts. *)
Lemma C5_records_mirror_rows_witness :
  let rows := [[PStr "a"; PNone]; [PInt 3; PBool true]] in
  let E := Sample.env_of rows (mk_DataFrame [] []) in
  (exists w',
      FmrXlsx.main E Sample.argv0 Sample.world0 = (Returned tt, w') /\
      Csv.read (file_content "out.csv" w') = [["a"; EmptyString]; ["3"; "True"]] /\
      Spec.csv_shape 2 2 (file_content "out.csv" w'))
  /\
  (exists w',
      Fmr2025.script E Sample.world0 = (Returned tt, w') /\
      Csv.read (file_content Fmr2025.output_path w')
        = [["a"; EmptyString]; ["3"; "True"]] /\
      Spec.csv_shape 2 2 (file_content Fmr2025.output_path w')).
Proof.
  intros rows E. split.
  - refine (proj1 (C5_records_mirror_rows E) 2 2 rows "convert.py" "in.xlsx"
              "out.csv" Sample.world0 _ _ _).
    + split; [reflexivity | repeat constructor].
    + exists (Sample.sheet_of rows). split; [intros; reflexivity | reflexivity].
    + split; [reflexivity | intros; reflexivity].
  - refine (proj2 (C5_records_mirror_rows E) 2 2 rows Sample.world0 _ _ _).
    + split; [reflexivity | repeat constructor].
    + exists (Sample.sheet_of rows). split; [intros; reflexivity | reflexivity].
    + split; [reflexivity | intros; reflexivity].
Defined.

(** ** C6 *)

(** C6, as stated, fails for convert_excel.py: pandas reads the text [NA]
    as a missing value and writes it back as an empty field. *)
Lemma C6_pandas_variant_loses_NA :
  let sheet := [[PStr "code"]; [PStr "NA"]] in
  let E := Sample.env_of sheet (Sample.frame_of_sheet sheet) in
  let w' := snd (ConvertExcel.script E Sample.argv0 Sample.world0) in
  Csv.read (file_content "out.csv" w') = [["code"]; [EmptyString]] /\
  Csv.read (file_content "out.csv" w') <> [["code"]; ["NA"]].
Proof.
  cbv zeta. split.
  - vm_compute. reflexivity.
  - vm_compute. discriminate.
Qed.

Lemma cell_text_of_strings E (srows : list (list string)) :
  map (map (Spec.cell_text E)) (map (map PStr) srows) = srows.
Proof.
  rewrite map_map. rewrite <- (map_id srows) at 2. apply map_ext.
  intros row. rewrite map_map. rewrite <- (map_id row) at 2.
  now apply map_ext.
Qed.

(** C6, amended: for a sheet whose cells are all strings, the file either
    openpyxl script writes reads back as the same strings, row by row and
    column by column. *)
Theorem C6_strings_round_trip
    (E : env) (srows : list (list string)) (prog inp out : string) (w : world) :
  Spec.loads E inp (map (map PStr) srows) ->
  Spec.loads E Fmr2025.input_path (map (map PStr) srows) ->
  Spec.writable E out -> Spec.writable E Fmr2025.output_path ->
  (exists w',
      FmrXlsx.main E [prog; inp; out] w = (Returned tt, w') /\
      Csv.read (file_content out w') = srows)
  /\
  (exists w',
      Fmr2025.script E w = (Returned tt, w') /\
      Csv.read (file_content Fmr2025.output_path w') = srows).
Proof.
  intros (ws & Hload & Hrows) (ws2 & Hload2 & Hrows2) Hout Hout2. split.
  - destruct (xlsx_main_ok E prog inp out ws _ w (Hload _ _) Hrows Hout)
      as (w' & Hrun & Hc).
    exists w'. split; [exact Hrun|].
    rewrite Hc, CsvFacts.read_text.
    rewrite <- (cell_text_of_strings E srows) at 2.
    apply map_ext. intros row. apply xlsx_field_texts.
  - destruct (fmr2025_script_ok E ws2 _ w (Hload2 _ _) Hrows2 Hout2)
      as (w' & Hrun & Hc).
    exists w'. split; [exact Hrun|].
    rewrite Hc, CsvFacts.read_text.
    rewrite <- (cell_text_of_strings E srows) at 2.
    apply map_ext. intros row. apply fmr2025_field_texts.
Qed.

(** The theorem at a sheet with a comma, an empty string, a row without
    cells and a row of one empty cell. *)
Lemma C6_strings_round_trip_witness :
  let srows := [["code"; "name, quoted"]; ["NA"; EmptyString]; []; [EmptyString]] in
  let E := Sample.env_of (map (map PStr) srows) (mk_DataFrame [] []) in
  (exists w',
      FmrXlsx.main E Sample.argv0 Sample.world0 = (Returned tt, w') /\
      Csv.read (file_content "out.csv" w') = srows)
  /\
  (exists w',
      Fmr2025.script E Sample.world0 = (Returned tt, w') /\
      Csv.read (file_content Fmr2025.output_path w') = srows).
Proof.
  intros srows E.
  refine (C6_strings_round_trip E srows "convert.py" "in.xlsx" "out.csv"
            Sample.world0 _ _ _ _).
  - exists (Sample.sheet_of (map (map PStr) srows)).
    split; [intros; reflexivity | reflexivity].
  - exists (Sample.sheet_of (map (map PStr) srows)).
    split; [intros; reflexivity | reflexivity].
  - split; [reflexivity | intros; reflexivity].
  - split; [reflexivity | intros; reflexivity].
Defined.

(** ** C7 *)

(** C7: in both openpyxl scripts the writer takes, for every cell of a row,
    the empty string when the cell is [None] and [str] of the cell
    otherwise; written and read back, the record holds these texts. *)
Theorem C7_missing_cells_are_empty_fields (E : env) (row : list pyval) :
  map (Py.csv_field E) (FmrXlsx.render_row row) = map (Spec.cell_text E) row /\
  map (Py.csv_field E) (Fmr2025.render_row E row) = map (Spec.cell_text E) row /\
  Spec.cell_text E PNone = EmptyString /\
  (forall cell, cell <> PNone -> Spec.cell_text E cell = Py.str E cell) /\
  Csv.read (Py.writerow_text E Csv.crlf (FmrXlsx.render_row row))
    = [map (Spec.cell_text E) row] /\
  Csv.read (Py.writerow_text E Csv.crlf (Fmr2025.render_row E row))
    = [map (Spec.cell_text E) row].
Proof.
  assert (Hone : forall fs, Csv.read (Csv.record_text Csv.crlf fs) = [fs]).
  { intros fs. rewrite <- (CsvFacts.read_text [fs]).
    cbn [Csv.text]. now rewrite append_nil_r. }
  repeat split.
  - apply xlsx_field_texts.
  - apply fmr2025_field_texts.
  - intros cell Hcell. destruct cell; [congruence | reflexivity ..].
  - unfold Py.writerow_text. now rewrite Hone, xlsx_field_texts.
  - unfold Py.writerow_text. now rewrite Hone, fmr2025_field_texts.
Qed.

(** ** C8 *)

(** C8: with an argument vector of any length but three, the script name
    and two arguments, convert_fmr_xlsx.py and convert_excel.py print
    their usage line and exit with status 1; nothing else of the world
    changes: no file, no module attribute, no call into the library. *)
Theorem C8_usage_error_before_any_io (E : env) (argv : list string) (w : world) :
  length argv <> 3 ->
  FmrXlsx.main E argv w =
    (Raised (SystemExit 1),
     mk_world (mods w) (clock w) (ticks w) (app (stdout w) [FmrXlsx.usage])
       (stderr w) (files w)) /\
  ConvertExcel.script E argv w =
    (Raised (SystemExit 1),
     mk_world (mods w) (clock w) (ticks w) (app (stdout w) [ConvertExcel.usage])
       (stderr w) (files w)) /\
  exit_status (fst (FmrXlsx.main E argv w)) = 1%Z /\
  exit_status (fst (ConvertExcel.script E argv w)) = 1%Z.
Proof.
  intros Hlen. apply Nat.eqb_neq in Hlen.
  unfold FmrXlsx.main, ConvertExcel.script. rewrite Hlen. cbn [negb].
  repeat split.
Qed.

(** The theorem at a command line with one argument. *)
Lemma C8_usage_error_before_any_io_witness :
  FmrXlsx.main (Sample.env_of [] (mk_DataFrame [] [])) ["convert.py"; "in.xlsx"]
    Sample.world0
  = (Raised (SystemExit 1),
     mk_world Sample.modules0 Sample.clock0 0 [FmrXlsx.usage] [] ∅).
Proof.
  exact (proj1 (C8_usage_error_before_any_io
                  (Sample.env_of [] (mk_DataFrame [] []))
                  ["convert.py"; "in.xlsx"] Sample.world0
                  ltac:(cbn; lia))).
Defined.

(** ** C10 *)

(** C10: the list convert_fmr_2025.py builds for a row and the list
    convert_fmr_xlsx.py builds for it make the writer write the same
    characters. *)
Theorem C10_renderings_write_the_same_record
    (E : env) (lineterminator : string) (row : list pyval) :
  Py.writerow_text E lineterminator (Fmr2025.render_row E row) =
  Py.writerow_text E lineterminator (FmrXlsx.render_row row).
Proof.
  unfold Py.writerow_text. now rewrite xlsx_field_texts, fmr2025_field_texts.
Qed.

(** ** C9 *)




(* ================================================================== *)
(** * Further properties of the scripts *)


(* ---------- generic preservation ---------- *)

Lemma preserves_ret {A B} (f : world -> B) (a : A) : preserves f (ret a).
Proof. intros w. reflexivity. Qed.

Lemma preserves_raise {A B} (f : world -> B) (e : exn) : preserves f (@raise A e).
Proof. intros w. reflexivity. Qed.

Lemma preserves_bind {A A' B} (f : world -> B) (c : M A) (k : A -> M A') :
  preserves f c -> (forall a, preserves f (k a)) -> preserves f (bind c k).
Proof.
  intros Hc Hk w. unfold bind. specialize (Hc w).
  destruct (c w) as [[a|e] w1]; cbn [snd] in *.
  - now rewrite Hk.
  - exact Hc.
Qed.

Lemma preserves_try_except {A B} (f : world -> B) (body : M A) filter handler :
  preserves f body -> (forall e, preserves f (handler e)) ->
  preserves f (try_except body filter handler).
Proof.
  intros Hb Hh w. unfold try_except. specialize (Hb w).
  destruct (body w) as [[a|e] w1]; cbn [snd] in *.
  - exact Hb.
  - destruct (filter e); cbn [snd]; [now rewrite Hh | exact Hb].
Qed.

Lemma preserves_try_finally {A B} (f : world -> B) (body : M A) final :
  preserves f body -> preserves f final ->
  preserves f (try_finally body final).
Proof.
  intros Hb Hf w. unfold try_finally. specialize (Hb w).
  destruct (body w) as [o w1]. specialize (Hf w1).
  destruct (final w1) as [[u|e] w2]; cbn [snd] in *; congruence.
Qed.

(* ---------- X: files other than the output ---------- *)

Section Frame.

Variable E : env.
Variable other : string.

Local Abbreviation keeps_other := (preserves (file_at other)).

Lemma other_print line : keeps_other (print line).
Proof. intros w. reflexivity. Qed.
Lemma other_print_exc e : keeps_other (print_exc e).
Proof. intros w. reflexivity. Qed.
Lemma other_call_lib {A} (c : lib A) : keeps_other (call_lib c).
Proof. intros w. reflexivity. Qed.
Lemma other_set_utils p : keeps_other (set_utils_datetime p).
Proof. intros w. reflexivity. Qed.
Lemma other_set_base p : keeps_other (set_descriptors_base p).
Proof. intros w. reflexivity. Qed.

Lemma other_set_file path content :
  other <> path -> keeps_other (set_file path content).
Proof.
  intros Hne w. unfold file_at. cbn. now rewrite lookup_insert_ne.
Qed.

Lemma other_open_w path : other <> path -> keeps_other (Io.open_w E path).
Proof.
  intros Hne. unfold Io.open_w. destruct (open_error E path).
  - apply preserves_raise.
  - now apply other_set_file.
Qed.

Lemma other_writerow lt path n row :
  other <> path -> keeps_other (Io.writerow E lt path n row).
Proof.
  intros Hne. unfold Io.writerow. destruct (write_error E path n).
  - apply preserves_raise.
  - intros w. now apply other_set_file.
Qed.

Lemma other_xlsx_sheet_line ws : keeps_other (FmrXlsx.sheet_line E ws).
Proof. destruct ws; cbn; [apply preserves_ret | apply preserves_raise]. Qed.

Lemma other_2025_sheet_line ws : keeps_other (Fmr2025.sheet_line E ws).
Proof. destruct ws; cbn; [apply preserves_ret | apply preserves_raise]. Qed.

Create HintDb frame.

#[local] Hint Resolve preserves_ret preserves_raise other_print other_print_exc
  other_call_lib other_set_utils other_set_base other_xlsx_sheet_line
  other_2025_sheet_line : frame.

Lemma other_xlsx_write_rows path items :
  other <> path -> forall idx, keeps_other (FmrXlsx.write_rows E path idx items).
Proof.
  intros Hne. induction items as [|[row|e] items IH]; intros idx;
    cbn [FmrXlsx.write_rows]; auto with frame.
  apply preserves_bind; [now apply other_writerow|]. intros _.
  apply preserves_bind; [destruct (Nat.eqb _ _); auto with frame|]. intros _.
  apply IH.
Qed.

Lemma other_xlsx_main argv :
  other <> nth 2 argv EmptyString -> keeps_other (FmrXlsx.main E argv).
Proof.
  intros Hne. unfold FmrXlsx.main.
  destruct (negb (Nat.eqb (length argv) 3)).
  - apply preserves_bind; [auto with frame|]. intros _. apply preserves_raise.
  - apply preserves_bind.
    + unfold FmrXlsx.patch, get_mods. intros w. reflexivity.
    + intros saved. apply preserves_try_finally.
      * apply preserves_try_except.
        -- unfold FmrXlsx.convert.
           repeat (apply preserves_bind; [|intros ?]);
             auto using other_open_w, other_xlsx_write_rows with frame.
        -- intros e. unfold FmrXlsx.on_error, sys_exit.
           repeat (apply preserves_bind; [|intros ?]); auto with frame.
      * unfold FmrXlsx.restore.
        apply preserves_bind; [|intros ?]; auto with frame.
Qed.

Lemma other_2025_collect items :
  forall rows, keeps_other (Fmr2025.collect E rows items).
Proof.
  induction items as [|[row|e] items IH]; intros rows; cbn [Fmr2025.collect];
    auto with frame.
Qed.

Lemma other_2025_writerows path rows :
  other <> path -> forall n, keeps_other (Fmr2025.writerows E path n rows).
Proof.
  intros Hne. induction rows as [|row rows IH]; intros n;
    cbn [Fmr2025.writerows]; auto with frame.
  apply preserves_bind; [now apply other_writerow|]. intros _. apply IH.
Qed.

Lemma other_2025_script :
  other <> Fmr2025.output_path -> keeps_other (Fmr2025.script E).
Proof.
  intros Hne. unfold Fmr2025.script.
  apply preserves_bind.
  - unfold Fmr2025.patch, get_mods. intros w. reflexivity.
  - intros saved. apply preserves_try_finally.
    + apply preserves_try_except.
      * unfold Fmr2025.convert.
        repeat (apply preserves_bind; [|intros ?]);
          auto using other_open_w, other_2025_collect, other_2025_writerows
            with frame.
      * intros e. unfold Fmr2025.on_error, sys_exit.
        repeat (apply preserves_bind; [|intros ?]); auto with frame.
    + destruct saved; cbn [Fmr2025.restore]; auto with frame.
Qed.

Lemma other_excel_write_data path rows :
  other <> path -> forall n, keeps_other (ConvertExcel.write_data E path n rows).
Proof.
  intros Hne. induction rows as [|row rows IH]; intros n;
    cbn [ConvertExcel.write_data]; auto with frame.
  apply preserves_bind; [now apply other_writerow|]. intros _. apply IH.
Qed.

Lemma other_excel_script argv :
  other <> nth 2 argv EmptyString -> keeps_other (ConvertExcel.script E argv).
Proof.
  intros Hne. unfold ConvertExcel.script.
  destruct (negb (Nat.eqb (length argv) 3)).
  - apply preserves_bind; [auto with frame|]. intros _. apply preserves_raise.
  - apply preserves_try_except.
    + unfold ConvertExcel.convert, ConvertExcel.to_csv.
      repeat (apply preserves_bind; [|intros ?]);
        auto using other_open_w, other_writerow, other_excel_write_data
          with frame.
    + intros e. unfold ConvertExcel.on_error, sys_exit.
      repeat (apply preserves_bind; [|intros ?]); auto with frame.
Qed.

End Frame.

(** X2: whatever happens in a run, no script changes, creates or removes
    a file other than the one at its output path. *)
Theorem X2_only_the_output_file_is_written
    (E : env) (argv : list string) (w : world) (other : string) :
  (other <> nth 2 argv EmptyString ->
   files (snd (FmrXlsx.main E argv w)) !! other = files w !! other) /\
  (other <> Fmr2025.output_path ->
   files (snd (Fmr2025.script E w)) !! other = files w !! other) /\
  (other <> nth 2 argv EmptyString ->
   files (snd (ConvertExcel.script E argv w)) !! other = files w !! other).
Proof.
  repeat split; intros Hne.
  - now apply (other_xlsx_main E other argv).
  - now apply (other_2025_script E other).
  - now apply (other_excel_script E other argv).
Qed.

(* ---------- load failure ---------- *)

Lemma mods_eta m : mk_modules (utils_datetime m) (descriptors_base m) = m.
Proof. now destruct m. Qed.

(** X3: when loading raises an Exception, each script prints its reading
    line and the error line with the exception's text, exits with status
    1, has made one call into the library and touched no file; the two
    openpyxl scripts also print a traceback, convert_excel.py does not. *)
Theorem X3_load_failure_is_reported
    (E : env) (prog inp out : string) (e : exn) (w : world) :
  is_Exception e = true ->
  load_fails E inp e -> load_fails E Fmr2025.input_path e -> read_fails E inp e ->
  FmrXlsx.main E [prog; inp; out] w =
    (Raised (SystemExit 1),
     mk_world (mods w) (clock w) (S (ticks w))
       (app (stdout w) ["Reading " ++ inp ++ " with openpyxl...";
                     "❌ Error: " ++ str_exn e])
       (app (stderr w) [traceback_line e]) (files w)) /\
  Fmr2025.script E w =
    (Raised (SystemExit 1),
     mk_world (mods w) (clock w) (S (ticks w))
       (app (stdout w) ["Reading " ++ Fmr2025.input_path ++ "...";
                     "❌ Error: " ++ str_exn e])
       (app (stderr w) [traceback_line e]) (files w)) /\
  ConvertExcel.script E [prog; inp; out] w =
    (Raised (SystemExit 1),
     mk_world (mods w) (clock w) (S (ticks w))
       (app (stdout w) ["Reading " ++ inp ++ "...";
                     "❌ Error: " ++ str_exn e])
       (stderr w) (files w)).
Proof.
  intros He H1 H2 H3. split; [|split].
  - unfold FmrXlsx.main, FmrXlsx.convert. cbn [length Nat.eqb negb nth].
    unfold bind, try_finally, try_except, call_lib. cbn.
    rewrite H1, He. cbn. rewrite mods_eta, <- app_assoc. reflexivity.
  - unfold Fmr2025.script, Fmr2025.convert.
    unfold bind, try_finally, try_except, call_lib. cbn.
    rewrite H2, He. cbn. rewrite mods_eta, <- app_assoc. reflexivity.
  - unfold ConvertExcel.script, ConvertExcel.convert. cbn [length Nat.eqb negb nth].
    unfold bind, try_except, call_lib. cbn.
    rewrite H3, He. cbn. rewrite <- app_assoc. reflexivity.
Qed.

(* ---------- the shape of a run around the try body ---------- *)

Lemma xlsx_main_body E prog inp out w :
  FmrXlsx.main E [prog; inp; out] w =
  match FmrXlsx.convert E inp out (patched_world xlsx_patched w) with
  | (Returned u, w2) =>
      (Returned u,
       mk_world (mods w) (clock w2) (ticks w2) (stdout w2) (stderr w2) (files w2))
  | (Raised e, w2) =>
      if is_Exception e then
        (Raised (SystemExit 1),
         mk_world (mods w) (clock w2) (ticks w2)
           (app (stdout w2) ["❌ Error: " ++ str_exn e])
           (app (stderr w2) [traceback_line e]) (files w2))
      else
        (Raised e,
         mk_world (mods w) (clock w2) (ticks w2) (stdout w2) (stderr w2) (files w2))
  end.
Proof.
  unfold FmrXlsx.main. cbn [length Nat.eqb negb nth].
  unfold bind at 1. cbn [FmrXlsx.patch].
  change (FmrXlsx.patch w) with
    (Returned (utils_datetime (mods w), descriptors_base (mods w)),
     patched_world xlsx_patched w).
  cbv beta iota. unfold try_finally, try_except.
  destruct (FmrXlsx.convert E inp out (patched_world xlsx_patched w))
    as [[u|e] w2].
  - cbn. now rewrite mods_eta.
  - destruct (is_Exception e); cbn; now rewrite mods_eta.
Qed.

Lemma fmr2025_script_body E w :
  Fmr2025.script E w =
  match Fmr2025.convert E
          (patched_world (mk_modules (Patched Fmr2025v) (descriptors_base (mods w))) w) with
  | (Returned u, w2) =>
      (Returned u,
       mk_world (mods w) (clock w2) (ticks w2) (stdout w2) (stderr w2) (files w2))
  | (Raised e, w2) =>
      if is_Exception e then
        (Raised (SystemExit 1),
         mk_world (mods w) (clock w2) (ticks w2)
           (app (stdout w2) ["❌ Error: " ++ str_exn e])
           (app (stderr w2) [traceback_line e]) (files w2))
      else
        (Raised e,
         mk_world (mods w) (clock w2) (ticks w2) (stdout w2) (stderr w2) (files w2))
  end.
Proof.
  unfold Fmr2025.script. unfold bind at 1.
  change (Fmr2025.patch w) with
    (Returned (Some (utils_datetime (mods w))),
     patched_world (mk_modules (Patched Fmr2025v) (descriptors_base (mods w))) w).
  cbv beta iota. unfold try_finally, try_except.
  pose proof (keeps_2025_convert E
    (patched_world (mk_modules (Patched Fmr2025v) (descriptors_base (mods w))) w)) as Hk.
  destruct (Fmr2025.convert E _) as [[u|e] w2]; cbn [snd] in Hk.
  - cbn. rewrite Hk. cbn. now rewrite mods_eta.
  - destruct (is_Exception e); cbn; rewrite Hk; cbn; now rewrite mods_eta.
Qed.

(* ---------- the loops ---------- *)

Lemma progress_lines_step idx n :
  progress_lines idx (S n) =
  app (if Nat.eqb (idx mod 2000) 0 then [progress_line idx] else [])
      (progress_lines (S idx) n).
Proof.
  unfold progress_lines. cbn [seq List.filter].
  destruct (Nat.eqb (idx mod 2000) 0); reflexivity.
Qed.

Section Loops.

Variable E : env.

(** The rows before the first failure are written, their progress lines
    printed, and the loop goes on with what follows. *)
Lemma xlsx_write_rows_prefix out pre tail :
  forall idx w,
    (forall n, idx <= n < idx + length pre -> write_error E out n = None) ->
    exists w1,
      FmrXlsx.write_rows E out idx (app (map Yield pre) tail) w =
      FmrXlsx.write_rows E out (idx + length pre) tail w1 /\
      file_content out w1 =
        file_content out w ++ Csv.text Csv.crlf (rendered_xlsx E pre) /\
      stdout w1 = app (stdout w) (progress_lines idx (length pre)) /\
      stderr w1 = stderr w /\ mods w1 = mods w.
Proof.
  induction pre as [|row pre IH]; intros idx w Hw.
  - exists w. cbn [map app length]. rewrite Nat.add_0_r.
    repeat split.
    + cbn [rendered_xlsx map Csv.text]. now rewrite append_nil_r.
    + cbn. now rewrite app_nil_r.
  - cbn [map app FmrXlsx.write_rows]. unfold bind at 1.
    rewrite writerow_ok by (apply Hw; cbn [length]; lia).
    set (w0 := mk_world _ _ _ _ _ _).
    assert (H0 : file_content out w0 =
                 file_content out w ++ Py.writerow_text E Csv.crlf (FmrXlsx.render_row row))
      by apply file_content_insert.
    unfold bind at 1.
    destruct (Nat.eqb (idx mod 2000) 0) eqn:Hmod.
    + cbn [print].
      destruct (IH (S idx)
        (mk_world (mods w0) (clock w0) (ticks w0)
           (app (stdout w0) ["  Processed " ++ PyStr.str_nat idx ++ " rows..."])
           (stderr w0) (files w0))) as (w1 & Hrun & Hc & Hout & Herr & Hm).
      { intros n Hn. apply Hw. cbn [length]. lia. }
      exists w1. split; [|split; [|split; [|split]]].
      * rewrite Hrun. cbn [length]. now rewrite Nat.add_succ_r.
      * rewrite Hc.
        change (file_content out (mk_world (mods w0) (clock w0) (ticks w0)
                  (app (stdout w0) ["  Processed " ++ PyStr.str_nat idx ++ " rows..."])
                  (stderr w0) (files w0))) with (file_content out w0).
        rewrite H0. cbn [rendered_xlsx map Csv.text]. now rewrite append_assoc.
      * rewrite Hout. cbn [length stdout w0]. rewrite progress_lines_step, Hmod.
        now rewrite <- app_assoc.
      * exact Herr.
      * exact Hm.
    + cbn [ret].
      destruct (IH (S idx) w0) as (w1 & Hrun & Hc & Hout & Herr & Hm).
      { intros n Hn. apply Hw. cbn [length]. lia. }
      exists w1. split; [|split; [|split; [|split]]].
      * rewrite Hrun. cbn [length]. now rewrite Nat.add_succ_r.
      * rewrite Hc, H0. cbn [rendered_xlsx map Csv.text]. now rewrite append_assoc.
      * rewrite Hout. cbn [length]. rewrite progress_lines_step, Hmod. reflexivity.
      * exact Herr.
      * exact Hm.
Qed.

Lemma xlsx_convert_opened inp out ws w :
  load_workbook E inp (mods w) (clock w (ticks w)) = Returned (mk_workbook (Some ws)) ->
  open_error E out = None ->
  FmrXlsx.convert E inp out w =
  bind (FmrXlsx.write_rows E out 1 (iter_rows ws))
       (fun _ => print ("✅ Successfully converted to " ++ out))
       (opened_world out
          ["Reading " ++ inp ++ " with openpyxl...";
           "Sheet: " ++ Py.str E (title ws) ++ ", Rows: " ++
           Py.str E (max_row ws) ++ ", Cols: " ++ Py.str E (max_column ws)] w).
Proof.
  intros Hload Hopen. unfold FmrXlsx.convert.
  unfold bind at 1. cbn [print]. unfold bind at 1. unfold call_lib.
  cbn [mods clock ticks]. rewrite Hload. cbn [active FmrXlsx.sheet_line].
  unfold bind at 1. cbn [ret]. unfold bind at 1. cbn [print].
  unfold bind at 1. rewrite open_w_ok by exact Hopen.
  unfold opened_world. cbn [mods clock ticks stdout stderr files].
  now rewrite <- app_assoc.
Qed.

End Loops.

Lemma rendered_xlsx_texts E rows :
  rendered_xlsx E rows = map (map (Spec.cell_text E)) rows.
Proof. unfold rendered_xlsx. apply map_ext. intros row. apply xlsx_field_texts. Qed.

Lemma progress_count n : forall k,
  length (progress_lines (S k) n) = (k + n) / 2000 - k / 2000.
Proof.
  induction n as [|n IH]; intros k.
  - cbn. rewrite Nat.add_0_r. lia.
  - rewrite progress_lines_step, length_app, IH.
    replace (S k + n) with (k + S n) by lia.
    assert (Hk : k / 2000 <= S k / 2000) by (apply Nat.Div0.div_le_mono; lia).
    assert (Hn : S k / 2000 <= (k + S n) / 2000) by (apply Nat.Div0.div_le_mono; lia).
    pose proof (Nat.div_mod_eq k 2000) as E1.
    pose proof (Nat.div_mod_eq (S k) 2000) as E2.
    pose proof (Nat.mod_upper_bound k 2000 ltac:(lia)) as B1.
    pose proof (Nat.mod_upper_bound (S k) 2000 ltac:(lia)) as B2.
    destruct (Nat.eqb (S k mod 2000) 0) eqn:Hmod.
    + apply Nat.eqb_eq in Hmod. cbn [length]. lia.
    + apply Nat.eqb_neq in Hmod. cbn [length]. lia.
Qed.

(** X8: a run of convert_fmr_xlsx.py in which nothing fails prints the
    reading line, the sheet line, one progress line for every row number
    that is a multiple of 2000 (R / 2000 lines for R rows), and the
    success line; nothing goes to standard error. *)
Theorem X8_xlsx_progress_lines
    (E : env) (prog inp out : string) (ws : worksheet)
    (rows : list (list pyval)) (w : world) :
  loads_items E inp ws -> iter_rows ws = map Yield rows -> Spec.writable E out ->
  exists w',
    FmrXlsx.main E [prog; inp; out] w = (Returned tt, w') /\
    stdout w' =
      app (stdout w)
        (app ["Reading " ++ inp ++ " with openpyxl...";
              "Sheet: " ++ Py.str E (title ws) ++ ", Rows: " ++
              Py.str E (max_row ws) ++ ", Cols: " ++ Py.str E (max_column ws)]
           (app (progress_lines 1 (length rows))
                ["✅ Successfully converted to " ++ out])) /\
    length (progress_lines 1 (length rows)) = length rows / 2000 /\
    stderr w' = stderr w.
Proof.
  intros Hload Hrows [Hopen Hwrite].
  rewrite xlsx_main_body.
  rewrite (xlsx_convert_opened E inp out ws) by (auto; apply Hload).
  rewrite Hrows. rewrite <- (app_nil_r (map Yield rows)).
  unfold bind at 1.
  destruct (xlsx_write_rows_prefix E out rows [] 1
              (opened_world out
                 ["Reading " ++ inp ++ " with openpyxl...";
                  "Sheet: " ++ Py.str E (title ws) ++ ", Rows: " ++
                  Py.str E (max_row ws) ++ ", Cols: " ++ Py.str E (max_column ws)]
                 (patched_world xlsx_patched w)))
    as (w1 & Hrun & _ & Hout & Herr & _).
  { intros n _. apply Hwrite. }
  rewrite Hrun. cbn [FmrXlsx.write_rows ret print].
  eexists. split; [reflexivity|]. cbn [stdout stderr].
  rewrite Hout, Herr. cbn [opened_world patched_world stdout stderr].
  split; [|split; [|reflexivity]].
  - now rewrite <- !app_assoc.
  - rewrite (progress_count (length rows) 0). cbn [Nat.add].
    rewrite (Nat.div_small 0 2000) by lia. lia.
Qed.

(* ---------- failures part-way through ---------- *)

Lemma file_content_files path w w' :
  files w = files w' -> file_content path w = file_content path w'.
Proof. unfold file_content. now intros ->. Qed.

(** X9: when reading a row fails in convert_fmr_xlsx.py, the script exits
    with status 1 after the error line, and the output file is left
    holding the records of the rows read before the failure. *)
Theorem X9_xlsx_row_failure_leaves_partial_file
    (E : env) (prog inp out : string) (ws : worksheet)
    (pre : list (list pyval)) (e : exn) (rest : list iter_item) (w : world) :
  loads_items E inp ws ->
  iter_rows ws = app (map Yield pre) (IterError e :: rest) ->
  is_Exception e = true ->
  Spec.writable E out ->
  exists w',
    FmrXlsx.main E [prog; inp; out] w = (Raised (SystemExit 1), w') /\
    Csv.read (file_content out w') = map (map (Spec.cell_text E)) pre /\
    last (stdout w') = Some ("❌ Error: " ++ str_exn e).
Proof.
  intros Hload Hrows He [Hopen Hwrite].
  rewrite xlsx_main_body.
  rewrite (xlsx_convert_opened E inp out ws) by (auto; apply Hload).
  rewrite Hrows. unfold bind at 1.
  match goal with
  | |- context [FmrXlsx.write_rows E out 1 _ ?w0] =>
      destruct (xlsx_write_rows_prefix E out pre (IterError e :: rest) 1 w0)
        as (w1 & Hrun & Hc & _)
  end.
  { intros n _. apply Hwrite. }
  rewrite Hrun. cbn [FmrXlsx.write_rows raise]. rewrite He.
  eexists. split; [reflexivity|]. split.
  - rewrite (file_content_files out _ w1) by reflexivity.
    rewrite Hc. unfold opened_world. rewrite file_content_insert, append_nil.
    rewrite CsvFacts.read_text. apply rendered_xlsx_texts.
  - cbn [stdout]. apply last_snoc.
Qed.

Section Loops2025.

Variable E : env.

Lemma fmr2025_collect_prefix pre tail :
  forall acc w,
    Fmr2025.collect E acc (app (map Yield pre) tail) w =
    Fmr2025.collect E (app acc (map (Fmr2025.render_row E) pre)) tail w.
Proof.
  induction pre as [|row pre IH]; intros acc w.
  - cbn [map app]. now rewrite app_nil_r.
  - cbn [map app Fmr2025.collect]. rewrite IH. now rewrite <- app_assoc.
Qed.

Lemma fmr2025_writerows_prefix out pre tail :
  forall n w,
    (forall k, n <= k < n + length pre -> write_error E out k = None) ->
    exists w1,
      Fmr2025.writerows E out n (app pre tail) w =
      Fmr2025.writerows E out (n + length pre) tail w1 /\
      file_content out w1 =
        file_content out w ++ Csv.text Csv.crlf (map (map (Py.csv_field E)) pre) /\
      stdout w1 = stdout w /\ stderr w1 = stderr w.
Proof.
  induction pre as [|row pre IH]; intros n w Hw.
  - exists w. cbn [app length]. rewrite Nat.add_0_r. repeat split.
    cbn [map Csv.text]. now rewrite append_nil_r.
  - cbn [app Fmr2025.writerows]. unfold bind at 1.
    rewrite writerow_ok by (apply Hw; cbn [length]; lia).
    set (w0 := mk_world _ _ _ _ _ _).
    assert (H0 : file_content out w0 =
                 file_content out w ++ Py.writerow_text E Csv.crlf row)
      by apply file_content_insert.
    destruct (IH (S n) w0) as (w1 & Hrun & Hc & Hout & Herr).
    { intros k Hk. apply Hw. cbn [length]. lia. }
    exists w1. split; [|split; [|split]].
    + rewrite Hrun. cbn [length]. now rewrite Nat.add_succ_r.
    + rewrite Hc, H0. cbn [map Csv.text]. now rewrite append_assoc.
    + exact Hout.
    + exact Herr.
Qed.

(** The script up to the loop that reads the rows. *)
Lemma fmr2025_convert_loaded ws w :
  load_workbook E Fmr2025.input_path (mods w) (clock w (ticks w))
    = Returned (mk_workbook (Some ws)) ->
  Fmr2025.convert E w =
  bind (Fmr2025.collect E [] (iter_rows ws))
    (fun rows =>
       bind (print ("Writing " ++ PyStr.str_nat (length rows) ++
                    " rows to " ++ Fmr2025.output_path ++ "..."))
         (fun _ =>
            bind (Io.open_w E Fmr2025.output_path)
              (fun _ =>
                 bind (Fmr2025.writerows E Fmr2025.output_path 1 rows)
                   (fun _ => print ("✅ Successfully converted to " ++
                                    Fmr2025.output_path)))))
    (mk_world (mods w) (clock w) (S (ticks w))
       (app (stdout w) ["Reading " ++ Fmr2025.input_path ++ "..."; sheet_text E ws])
       (stderr w) (files w)).
Proof.
  intros Hload. unfold Fmr2025.convert.
  unfold bind at 1. cbn [print]. unfold bind at 1. unfold call_lib.
  cbn [mods clock ticks]. rewrite Hload. cbn [active Fmr2025.sheet_line].
  unfold bind at 1. cbn [ret]. unfold bind at 1. cbn [print].
  cbn [mods clock ticks stdout stderr files]. unfold sheet_text.
  now rewrite <- app_assoc.
Qed.

End Loops2025.

(** X11: when reading a row fails in convert_fmr_2025.py, the output file
    has not been opened yet: the script reports the error, exits with
    status 1 and leaves every file as it was. *)
Theorem X11_fmr2025_row_failure_writes_nothing
    (E : env) (ws : worksheet) (pre : list (list pyval)) (e : exn)
    (rest : list iter_item) (w : world) :
  loads_items E Fmr2025.input_path ws ->
  iter_rows ws = app (map Yield pre) (IterError e :: rest) ->
  is_Exception e = true ->
  Fmr2025.script E w =
    (Raised (SystemExit 1),
     mk_world (mods w) (clock w) (S (ticks w))
       (app (stdout w)
          ["Reading " ++ Fmr2025.input_path ++ "..."; sheet_text E ws;
           "❌ Error: " ++ str_exn e])
       (app (stderr w) [traceback_line e]) (files w)).
Proof.
  intros Hload Hrows He.
  rewrite fmr2025_script_body.
  rewrite (fmr2025_convert_loaded E ws) by apply Hload.
  rewrite Hrows. unfold bind at 1.
  rewrite fmr2025_collect_prefix. cbn [Fmr2025.collect raise]. rewrite He.
  cbn [patched_world mods clock ticks stdout stderr files].
  now rewrite <- app_assoc.
Qed.

(** X13: a run of convert_fmr_2025.py in which nothing fails prints four
    lines, and the number of rows in its writing line is the number of
    records in the file it leaves. *)
Theorem X13_fmr2025_reports_the_rows_it_writes
    (E : env) (ws : worksheet) (rows : list (list pyval)) (w : world) :
  loads_items E Fmr2025.input_path ws ->
  iter_rows ws = map Yield rows ->
  Spec.writable E Fmr2025.output_path ->
  exists w',
    Fmr2025.script E w = (Returned tt, w') /\
    stdout w' =
      app (stdout w)
        ["Reading " ++ Fmr2025.input_path ++ "..."; sheet_text E ws;
         "Writing " ++ PyStr.str_nat (length rows) ++ " rows to " ++
           Fmr2025.output_path ++ "...";
         "✅ Successfully converted to " ++ Fmr2025.output_path] /\
    length (Csv.read (file_content Fmr2025.output_path w')) = length rows /\
    stderr w' = stderr w.
Proof.
  intros Hload Hrows [Hopen Hwrite].
  rewrite fmr2025_script_body.
  rewrite (fmr2025_convert_loaded E ws) by apply Hload.
  rewrite Hrows. unfold bind at 1. rewrite fmr2025_collect_ok. cbn [app].
  unfold bind at 1. cbn [print]. unfold bind at 1.
  rewrite open_w_ok by exact Hopen. unfold bind at 1.
  match goal with
  | |- context [Fmr2025.writerows E Fmr2025.output_path 1 _ ?w0] =>
      destruct (fmr2025_writerows_prefix E Fmr2025.output_path
                  (map (Fmr2025.render_row E) rows) [] 1 w0)
        as (w1 & Hrun & Hc & Hout & Herr)
  end.
  { intros n _. apply Hwrite. }
  rewrite app_nil_r in Hrun.
  rewrite Hrun. cbn [Fmr2025.writerows ret print].
  eexists. split; [reflexivity|]. cbn [stdout stderr].
  rewrite Hout, Herr. cbn [stdout stderr patched_world].
  split; [|split; [|reflexivity]].
  - rewrite length_map. now rewrite <- !app_assoc.
  - rewrite (file_content_files Fmr2025.output_path _ w1) by reflexivity.
    rewrite Hc. rewrite file_content_insert, append_nil.
    rewrite CsvFacts.read_text. now rewrite !length_map.
Qed.

(* ---------- other failures ---------- *)

(** X4: an exception raised by the load that is no Exception (a keyboard
    interrupt) passes the handler: no error line, no traceback, the
    exception leaves the script; the module attributes are restored and
    no file is touched. *)
Theorem X4_interrupt_passes_the_handler
    (E : env) (prog inp out : string) (e : exn) (w : world) :
  is_Exception e = false ->
  load_fails E inp e -> load_fails E Fmr2025.input_path e -> read_fails E inp e ->
  FmrXlsx.main E [prog; inp; out] w =
    (Raised e,
     mk_world (mods w) (clock w) (S (ticks w))
       (app (stdout w) ["Reading " ++ inp ++ " with openpyxl..."])
       (stderr w) (files w)) /\
  Fmr2025.script E w =
    (Raised e,
     mk_world (mods w) (clock w) (S (ticks w))
       (app (stdout w) ["Reading " ++ Fmr2025.input_path ++ "..."])
       (stderr w) (files w)) /\
  ConvertExcel.script E [prog; inp; out] w =
    (Raised e,
     mk_world (mods w) (clock w) (S (ticks w))
       (app (stdout w) ["Reading " ++ inp ++ "..."])
       (stderr w) (files w)).
Proof.
  intros He H1 H2 H3. split; [|split].
  - unfold FmrXlsx.main, FmrXlsx.convert. cbn [length Nat.eqb negb nth].
    unfold bind, try_finally, try_except, call_lib. cbn.
    rewrite H1, He. cbn. now rewrite mods_eta.
  - unfold Fmr2025.script, Fmr2025.convert.
    unfold bind, try_finally, try_except, call_lib. cbn.
    rewrite H2, He. cbn. now rewrite mods_eta.
  - unfold ConvertExcel.script, ConvertExcel.convert. cbn [length Nat.eqb negb nth].
    unfold bind, try_except, call_lib. cbn.
    now rewrite H3, He.
Qed.

(** X5: a workbook that loads but has no active sheet ends both openpyxl
    scripts with the AttributeError of [ws.title] reported and status 1,
    before the output file is opened. *)
Theorem X5_workbook_without_active_sheet
    (E : env) (prog inp out : string) (w : world) :
  no_active_sheet E inp -> no_active_sheet E Fmr2025.input_path ->
  FmrXlsx.main E [prog; inp; out] w =
    (Raised (SystemExit 1),
     mk_world (mods w) (clock w) (S (ticks w))
       (app (stdout w) ["Reading " ++ inp ++ " with openpyxl...";
                        "❌ Error: " ++ str_exn no_title])
       (app (stderr w) [traceback_line no_title]) (files w)) /\
  Fmr2025.script E w =
    (Raised (SystemExit 1),
     mk_world (mods w) (clock w) (S (ticks w))
       (app (stdout w) ["Reading " ++ Fmr2025.input_path ++ "...";
                        "❌ Error: " ++ str_exn no_title])
       (app (stderr w) [traceback_line no_title]) (files w)).
Proof.
  intros H1 H2. split.
  - unfold FmrXlsx.main, FmrXlsx.convert. cbn [length Nat.eqb negb nth].
    unfold bind, try_finally, try_except, call_lib. cbn.
    rewrite H1. cbn. rewrite mods_eta, <- app_assoc. reflexivity.
  - unfold Fmr2025.script, Fmr2025.convert.
    unfold bind, try_finally, try_except, call_lib. cbn.
    rewrite H2. cbn. rewrite mods_eta, <- app_assoc. reflexivity.
Qed.

(** X6: when the output file cannot be opened, both openpyxl scripts
    report the error and exit with status 1 without changing any file;
    convert_fmr_xlsx.py does so whatever the rows of the sheet are, before
    it reads one, convert_fmr_2025.py after it has read them all and
    printed their number. *)
Theorem X6_unwritable_output
    (E : env) (prog inp out : string) (ws : worksheet)
    (rows : list (list pyval)) (e : exn) (w : world) :
  is_Exception e = true ->
  loads_items E inp ws -> loads_items E Fmr2025.input_path ws ->
  open_error E out = Some e -> open_error E Fmr2025.output_path = Some e ->
  FmrXlsx.main E [prog; inp; out] w =
    (Raised (SystemExit 1),
     mk_world (mods w) (clock w) (S (ticks w))
       (app (stdout w) ["Reading " ++ inp ++ " with openpyxl..."; sheet_text E ws;
                        "❌ Error: " ++ str_exn e])
       (app (stderr w) [traceback_line e]) (files w)) /\
  (iter_rows ws = map Yield rows ->
   Fmr2025.script E w =
     (Raised (SystemExit 1),
      mk_world (mods w) (clock w) (S (ticks w))
        (app (stdout w) ["Reading " ++ Fmr2025.input_path ++ "..."; sheet_text E ws;
                         "Writing " ++ PyStr.str_nat (length rows) ++ " rows to " ++
                           Fmr2025.output_path ++ "...";
                         "❌ Error: " ++ str_exn e])
        (app (stderr w) [traceback_line e]) (files w))).
Proof.
  intros He H1 H2 Ho1 Ho2. split; [|intros Hrows].
  - unfold FmrXlsx.main, FmrXlsx.convert. cbn [length Nat.eqb negb nth].
    unfold bind, try_finally, try_except, call_lib, Io.open_w. cbn.
    rewrite H1. cbn. rewrite Ho1. cbn. rewrite He. cbn.
    rewrite mods_eta, <- !app_assoc. reflexivity.
  - rewrite fmr2025_script_body.
    rewrite (fmr2025_convert_loaded E ws) by apply H2.
    rewrite Hrows. unfold bind at 1. rewrite fmr2025_collect_ok. cbn [app].
    unfold bind at 1. cbn [print]. unfold bind at 1.
    unfold Io.open_w. rewrite Ho2. cbn [raise]. rewrite He.
    cbn [patched_world mods clock ticks stdout stderr files].
    rewrite length_map, <- !app_assoc. reflexivity.
Qed.

(** X7: for a sheet without rows both openpyxl scripts end normally and
    leave the output file present and empty, whatever it held before. *)
Theorem X7_empty_sheet_gives_empty_file
    (E : env) (prog inp out : string) (ws : worksheet) (w : world) :
  loads_items E inp ws -> loads_items E Fmr2025.input_path ws ->
  iter_rows ws = [] ->
  open_error E out = None -> open_error E Fmr2025.output_path = None ->
  (fst (FmrXlsx.main E [prog; inp; out] w) = Returned tt /\
   files (snd (FmrXlsx.main E [prog; inp; out] w))
     = <[out := EmptyString]> (files w)) /\
  (fst (Fmr2025.script E w) = Returned tt /\
   files (snd (Fmr2025.script E w))
     = <[Fmr2025.output_path := EmptyString]> (files w)).
Proof.
  intros H1 H2 Hrows Ho1 Ho2. split.
  - rewrite xlsx_main_body.
    rewrite (xlsx_convert_opened E inp out ws) by (auto; apply H1).
    rewrite Hrows. cbn. split; reflexivity.
  - rewrite fmr2025_script_body.
    rewrite (fmr2025_convert_loaded E ws) by apply H2.
    rewrite Hrows. unfold bind, Io.open_w. cbn. rewrite Ho2. cbn.
    split; reflexivity.
Qed.

(* ---------- the parser while patched ---------- *)

(** X14: in the state either patch leaves, the tolerant parser returns
    the clock reading for every string, whatever the library's routine
    would make of it: the name [original] is the tolerant parser. *)
Theorem X14_patched_parser_returns_the_clock
    (from_ISO8601 : string -> option parsed) (v : variant) (d : nat)
    (s : string) (w : world) (now : datetime) :
  Tolerant.call_parser from_ISO8601 (S d) (Patched v) s
    (mods (snd (FmrXlsx.patch w))) now = Returned (AsDateTime now) /\
  Tolerant.call_parser from_ISO8601 (S d) (Patched v) s
    (mods (snd (Fmr2025.patch w))) now = Returned (AsDateTime now).
Proof.
  split.
  - now apply call_while_patched with Xlsx.
  - now apply call_while_patched with Fmr2025v.
Qed.

(* ---------- the repair ---------- *)

Lemma replace2_absent a b new n :
  forall s, String.length s <= n ->
    PyStr.contains (String a (String b EmptyString)) s = false ->
    PyStr.replace2 a b new s = s.
Proof.
  induction n as [|n IH]; intros s Hn Hs.
  - destruct s; [reflexivity | simpl in Hn; lia].
  - destruct s as [|x [|y r]]; try reflexivity.
    rewrite replace2_cons. rewrite contains_cons in Hs.
    apply orb_false_elim in Hs as [Hxy Hs]. cbn [PyStr.first_is] in Hxy.
    rewrite Hxy. f_equal. apply IH; [simpl in Hn |- *; lia | exact Hs].
Qed.

Lemma replace_absent a b new s :
  PyStr.contains (String a (String b EmptyString)) s = false ->
  PyStr.replace (String a (String b EmptyString)) new s = s.
Proof.
  intros H. rewrite replace_two. now apply (replace2_absent a b new (String.length s)).
Qed.

(** X15: a string with no doubled blank, no blank after [-] and none after
    [T] comes out of the repair as it went in. *)
Theorem X15_repair_leaves_well_formed_strings
    (s : string) :
  PyStr.contains "  " s = false ->
  PyStr.contains "- " s = false ->
  PyStr.contains "T " s = false ->
  Tolerant.repair s = s.
Proof.
  intros H1 H2 H3. unfold Tolerant.repair.
  rewrite (replace_absent " " " " " " s H1).
  rewrite (replace_absent "-" " " "-0" s H2).
  now rewrite (replace_absent "T" " " "T0" s H3).
Qed.

Lemma without_app cs s t : without cs (s ++ t) = without cs s ++ without cs t.
Proof.
  induction s as [|c s IH]; [reflexivity|].
  rewrite append_String. cbn [without].
  destruct (existsb (Ascii.eqb c) cs); rewrite IH; reflexivity.
Qed.

Lemma length_append s t : String.length (s ++ t) = String.length s + String.length t.
Proof.
  induction s as [|c s IH]; [reflexivity|].
  rewrite append_String. cbn [String.length]. now rewrite IH.
Qed.

Lemma replace2_keeps cs a b new n :
  without cs new = without cs (String a (String b EmptyString)) ->
  String.length new <= 2 ->
  forall s, String.length s <= n ->
    without cs (PyStr.replace2 a b new s) = without cs s /\
    String.length (PyStr.replace2 a b new s) <= String.length s.
Proof.
  intros Hnew Hlen. induction n as [|n IH]; intros s Hn.
  - destruct s; [split; reflexivity | simpl in Hn; lia].
  - destruct s as [|x [|y r]]; try (split; reflexivity).
    rewrite replace2_cons. simpl in Hn.
    destruct (Ascii.eqb x a && Ascii.eqb y b) eqn:Hxy.
    + apply andb_true_iff in Hxy as [Hx Hy].
      apply Ascii.eqb_eq in Hx, Hy. subst x y.
      destruct (IH r ltac:(lia)) as [Hw Hl]. split.
      * rewrite without_app, Hnew, Hw.
        change (String a (String b r)) with (String a (String b EmptyString) ++ r).
        now rewrite without_app.
      * rewrite length_append. cbn [String.length]. lia.
    + destruct (IH (String y r) ltac:(simpl; lia)) as [Hw Hl]. split.
      * cbn [without]. now rewrite Hw.
      * cbn [String.length] in *. lia.
Qed.

Lemma replace_keeps cs a b new s :
  without cs new = without cs (String a (String b EmptyString)) ->
  String.length new <= 2 ->
  without cs (PyStr.replace (String a (String b EmptyString)) new s) = without cs s /\
  String.length (PyStr.replace (String a (String b EmptyString)) new s)
    <= String.length s.
Proof.
  intros H1 H2. rewrite replace_two.
  now apply (replace2_keeps cs a b new (String.length s)).
Qed.

(** X16: the repair never makes a string longer, and apart from blanks and
    zeros the characters of the string stay what and where they were. *)
Theorem X16_repair_touches_only_blanks_and_zeros (s : string) :
  without [" "%char; "0"%char] (Tolerant.repair s)
    = without [" "%char; "0"%char] s /\
  String.length (Tolerant.repair s) <= String.length s.
Proof.
  unfold Tolerant.repair.
  destruct (replace_keeps [" "%char; "0"%char] " " " " " " s
              eq_refl ltac:(cbn; lia)) as [A1 L1].
  destruct (replace_keeps [" "%char; "0"%char] "-" " " "-0"
              (PyStr.replace "  " " " s) eq_refl ltac:(cbn; lia)) as [A2 L2].
  destruct (replace_keeps [" "%char; "0"%char] "T" " " "T0"
              (PyStr.replace "- " "-0" (PyStr.replace "  " " " s))
              eq_refl ltac:(cbn; lia)) as [A3 L3].
  split; [congruence | lia].
Qed.

(** X17: the tolerant parsers of the two scripts return the same for every
    string, stack depth, content of the module attributes and clock
    reading: what is raised inside is an Exception, which both [except]
    clauses take. *)
Theorem X17_tolerant_parsers_agree
    (from_ISO8601 : string -> option parsed) (d : nat) (s : string)
    (m : modules) (now : datetime) :
  Tolerant.call_parser from_ISO8601 d (Patched Xlsx) s m now =
  Tolerant.call_parser from_ISO8601 d (Patched Fmr2025v) s m now.
Proof.
  destruct d as [|d]; [reflexivity|].
  rewrite !call_patched.
  destruct (Tolerant.call_parser from_ISO8601 d (utils_datetime m)
              (Tolerant.repair s) m now) as [t|e] eqn:Hc; [reflexivity|].
  apply call_raises_Exception in Hc.
  now rewrite !catches_Exception.
Qed.

(** ** The further properties at sample inputs *)

(** X3 at a missing input file. *)
Lemma X3_load_failure_is_reported_witness :
  fst (FmrXlsx.main (Cases.env_failing Cases.not_found) Sample.argv0 Sample.world0)
    = Raised (SystemExit 1) /\
  stdout (snd (FmrXlsx.main (Cases.env_failing Cases.not_found) Sample.argv0
                 Sample.world0))
    = ["Reading in.xlsx with openpyxl...";
       "❌ Error: [Errno 2] No such file or directory: 'in.xlsx'"].
Proof.
  unfold Sample.argv0.
  rewrite (proj1 (X3_load_failure_is_reported (Cases.env_failing Cases.not_found)
                    "convert.py" "in.xlsx" "out.csv" Cases.not_found Sample.world0
                    eq_refl (fun _ _ => eq_refl) (fun _ _ => eq_refl)
                    (fun _ _ => eq_refl))).
  split; reflexivity.
Defined.

(** X4 at a keyboard interrupt during the load. *)
Lemma X4_interrupt_passes_the_handler_witness :
  fst (FmrXlsx.main (Cases.env_failing Cases.interrupt) Sample.argv0 Sample.world0)
    = Raised Cases.interrupt /\
  stderr (snd (FmrXlsx.main (Cases.env_failing Cases.interrupt) Sample.argv0
                 Sample.world0)) = [].
Proof.
  unfold Sample.argv0.
  rewrite (proj1 (X4_interrupt_passes_the_handler (Cases.env_failing Cases.interrupt)
                    "convert.py" "in.xlsx" "out.csv" Cases.interrupt Sample.world0
                    eq_refl (fun _ _ => eq_refl) (fun _ _ => eq_refl)
                    (fun _ _ => eq_refl))).
  split; reflexivity.
Defined.

(** X5 at a workbook without sheets. *)
Lemma X5_workbook_without_active_sheet_witness :
  fst (Fmr2025.script Cases.env_no_sheet Sample.world0) = Raised (SystemExit 1) /\
  files (snd (Fmr2025.script Cases.env_no_sheet Sample.world0)) = ∅.
Proof.
  rewrite (proj2 (X5_workbook_without_active_sheet Cases.env_no_sheet
                    "convert.py" "in.xlsx" "out.csv" Sample.world0
                    (fun _ _ => eq_refl) (fun _ _ => eq_refl))).
  split; reflexivity.
Defined.

(** X6 at an output path that may not be written. *)
Lemma X6_unwritable_output_witness :
  let E := Cases.env_sheet (Sample.sheet_of [Cases.row1; Cases.row2])
             (fun _ => Some Cases.denied) (fun _ _ => None) in
  fst (FmrXlsx.main E Sample.argv0 Sample.world0) = Raised (SystemExit 1) /\
  files (snd (FmrXlsx.main E Sample.argv0 Sample.world0)) = ∅.
Proof.
  intros E. unfold Sample.argv0.
  rewrite (proj1 (X6_unwritable_output E "convert.py" "in.xlsx" "out.csv"
                    (Sample.sheet_of [Cases.row1; Cases.row2])
                    [Cases.row1; Cases.row2] Cases.denied Sample.world0
                    eq_refl (fun _ _ => eq_refl) (fun _ _ => eq_refl)
                    eq_refl eq_refl)).
  split; reflexivity.
Defined.

(** X7 at an empty sheet. *)
Lemma X7_empty_sheet_gives_empty_file_witness :
  let E := Cases.env_sheet (Sample.sheet_of []) (fun _ => None) (fun _ _ => None) in
  files (snd (FmrXlsx.main E Sample.argv0 Sample.world0))
    = <["out.csv" := EmptyString]> ∅.
Proof.
  intros E.
  exact (proj2 (proj1 (X7_empty_sheet_gives_empty_file E "convert.py" "in.xlsx"
                         "out.csv" (Sample.sheet_of []) Sample.world0
                         (fun _ _ => eq_refl) (fun _ _ => eq_refl)
                         eq_refl eq_refl eq_refl))).
Defined.

(** X8 at a sheet of two rows. *)
Lemma X8_xlsx_progress_lines_witness :
  let ws := Sample.sheet_of [Cases.row1; Cases.row2] in
  let E := Cases.env_sheet ws (fun _ => None) (fun _ _ => None) in
  exists w',
    FmrXlsx.main E Sample.argv0 Sample.world0 = (Returned tt, w') /\
    stdout w' = ["Reading in.xlsx with openpyxl...";
                 "Sheet: Sheet1, Rows: 2, Cols: 2";
                 "✅ Successfully converted to out.csv"] /\
    length (progress_lines 1 2) = 0 /\
    stderr w' = [].
Proof.
  intros ws E.
  exact (X8_xlsx_progress_lines E "convert.py" "in.xlsx" "out.csv" ws
           [Cases.row1; Cases.row2] Sample.world0
           (fun _ _ => eq_refl) eq_refl
           (conj eq_refl (fun _ => eq_refl))).
Defined.

(** X9 at a sheet whose second row cannot be read. *)
Lemma X9_xlsx_row_failure_leaves_partial_file_witness :
  let E := Cases.env_sheet Cases.broken_sheet (fun _ => None) (fun _ _ => None) in
  exists w',
    FmrXlsx.main E Sample.argv0 Sample.world0 = (Raised (SystemExit 1), w') /\
    Csv.read (file_content "out.csv" w') = [["a"; EmptyString]] /\
    last (stdout w') = Some "❌ Error: could not read the row".
Proof.
  intros E.
  exact (X9_xlsx_row_failure_leaves_partial_file E "convert.py" "in.xlsx" "out.csv"
           Cases.broken_sheet [Cases.row1] Cases.bad_cell [] Sample.world0
           (fun _ _ => eq_refl) eq_refl eq_refl
           (conj eq_refl (fun _ => eq_refl))).
Defined.

(** X11 at a sheet whose second row cannot be read. *)
Lemma X11_fmr2025_row_failure_writes_nothing_witness :
  let E := Cases.env_sheet Cases.broken_sheet (fun _ => None) (fun _ _ => None) in
  fst (Fmr2025.script E Sample.world0) = Raised (SystemExit 1) /\
  files (snd (Fmr2025.script E Sample.world0)) = ∅.
Proof.
  intros E.
  rewrite (X11_fmr2025_row_failure_writes_nothing E Cases.broken_sheet
             [Cases.row1] Cases.bad_cell [] Sample.world0
             (fun _ _ => eq_refl) eq_refl eq_refl).
  split; reflexivity.
Defined.

(** X13 at a sheet of two rows. *)
Lemma X13_fmr2025_reports_the_rows_it_writes_witness :
  let ws := Sample.sheet_of [Cases.row1; Cases.row2] in
  let E := Cases.env_sheet ws (fun _ => None) (fun _ _ => None) in
  exists w',
    Fmr2025.script E Sample.world0 = (Returned tt, w') /\
    stdout w' = ["Reading data/FY25_FMRs_revised.xlsx...";
                 "Sheet: Sheet1, Rows: 2, Cols: 2";
                 "Writing 2 rows to data/fmr-2025.csv...";
                 "✅ Successfully converted to data/fmr-2025.csv"] /\
    length (Csv.read (file_content Fmr2025.output_path w')) = 2 /\
    stderr w' = [].
Proof.
  intros ws E.
  exact (X13_fmr2025_reports_the_rows_it_writes E ws [Cases.row1; Cases.row2]
           Sample.world0 (fun _ _ => eq_refl) eq_refl
           (conj eq_refl (fun _ => eq_refl))).
Defined.

(** X15 at a well-formed timestamp. *)
Lemma X15_repair_leaves_well_formed_strings_witness :
  Tolerant.repair "2025-02-18T20:40:31Z" = "2025-02-18T20:40:31Z".
Proof.
  exact (X15_repair_leaves_well_formed_strings "2025-02-18T20:40:31Z"
           eq_refl eq_refl eq_refl).
Defined.
